(** * EcoReport: report submission, feed filtering and live comments

    A shallow embedding of the orchestration code of the EcoReport
    React Native client:

    - [ReportScreen.handleSubmit]        (src/screens/ReportScreen.tsx, first module)
    - [CreateReportScreen.handleSubmit]  (src/screens/ReportScreen.tsx, second module)
    - [TabsReportScreen.handleSubmit]    (the tab variant of the report screen,
                                          second module of unnamed/part_002)
    - [HomeScreen.fetchReports], [HomeScreen.filterReports]
                                         (src/screens/HomeScreen.tsx)
    - [ReportDetailScreen.fetchReport], [fetchComments], [subscribeToComments],
      [handleAddComment] and the mount effect (unnamed/part_004)
    - the tables and policies of supabase/migrations and unnamed/part_000
    - the capture handlers of the three report screens ([takePhoto],
      [pickImage], [handleImagePicker], [requestCameraPermission],
      [requestLocationPermission], [getCurrentLocation]) and the focus
      listener of [CreateReportScreen], over a fake of the handset
    - [MyReportsScreen.fetchReports]     (src/screens/ReportScreen.tsx, third module)
    - [onRefresh] of the two lists, [ReportDetailScreen.renderMap] and
      [ProfileScreen.fetchUserStats]     (unnamed/part_005).

    Asynchronous handlers are modelled as computations in a state and
    exception monad over a world made of the screen's React state, a
    substitutable fake of the Supabase data service, and the list of
    user-visible events (alerts, navigation).  [console.log] calls have
    no behaviour and are left out. *)

From Stdlib Require Import String Ascii List ZArith NArith Lia Bool.
From Stdlib Require Import Sorted Permutation DecimalString DecimalZ.
Import ListNotations.
Local Open Scope list_scope.
Local Open Scope string_scope.

Set Implicit Arguments.

(* ====================================================================== *)
(** * JavaScript strings and values *)
(* ====================================================================== *)

(** Strings are sequences of code units; the model covers the code units
    below U+0100, one [ascii] each. *)
Module Js.

Definition codeUnit (c : ascii) : N := N_of_ascii c.

(** [WhiteSpace] and [LineTerminator] of ECMAScript, restricted to the
    modelled code units: TAB, LF, VT, FF, CR, SP and NBSP. *)
Definition isWhiteSpace (c : ascii) : bool :=
  let n := codeUnit c in
  (((9 <=? n) && (n <=? 13)) || (n =? 32) || (n =? 160))%N.

Fixpoint trimStart (s : string) : string :=
  match s with
  | EmptyString => EmptyString
  | String c s' => if isWhiteSpace c then trimStart s' else s
  end.

Fixpoint trimEnd (s : string) : string :=
  match s with
  | EmptyString => EmptyString
  | String c s' =>
      match trimEnd s' with
      | EmptyString => if isWhiteSpace c then EmptyString else String c EmptyString
      | t => String c t
      end
  end.

(** [String.prototype.trim] *)
Definition trim (s : string) : string := trimEnd (trimStart s).

(** [String.prototype.toLowerCase] on the modelled code units: the Basic
    Latin capitals and the Latin-1 capitals (U+00C0..U+00DE but U+00D7). *)
Definition toLowerCaseUnit (c : ascii) : ascii :=
  let n := codeUnit c in
  if (((65 <=? n) && (n <=? 90)) ||
      ((192 <=? n) && (n <=? 222) && negb (n =? 215)))%N
  then ascii_of_N (n + 32) else c.

Fixpoint toLowerCase (s : string) : string :=
  match s with
  | EmptyString => EmptyString
  | String c s' => String (toLowerCaseUnit c) (toLowerCase s')
  end.

(** [s.startsWith(t)] *)
Fixpoint startsWith (s t : string) {struct t} : bool :=
  match t, s with
  | EmptyString, _ => true
  | String _ _, EmptyString => false
  | String b t', String a s' => Ascii.eqb a b && startsWith s' t'
  end.

(** [s.includes(t)] *)
Fixpoint includes (s t : string) : bool :=
  startsWith s t ||
  match s with
  | EmptyString => false
  | String _ s' => includes s' t
  end.

(** Truthiness of a string: the empty string is falsy. *)
Definition truthy (s : string) : bool := negb (s =? "").

(** Truthiness of [string | null | undefined]. *)
Definition truthyOpt (s : option string) : bool :=
  match s with
  | Some s => truthy s
  | None => false
  end.

(** [a || b] on possibly-undefined strings. *)
Definition orElse (a : option string) (b : string) : string :=
  match a with
  | Some s => if truthy s then s else b
  | None => b
  end.

(** Template-literal rendering of an integral number. *)
Definition numberToString (z : Z) : string :=
  NilEmpty.string_of_int (Z.to_int z).

Definition newline : string := String (ascii_of_nat 10) EmptyString.

(** A plain object with string-valued properties, as a list of entries. *)
Definition Obj : Type := list (string * string).

(** [o.name]: [undefined] when the object has no such property. *)
Fixpoint prop (name : string) (o : Obj) : option string :=
  match o with
  | nil => None
  | cons (k, v) o' => if k =? name then Some v else prop name o'
  end.

End Js.

(* ====================================================================== *)
(** * Completions and the handler monad *)
(* ====================================================================== *)

(** A thrown [Error] object; only its [message] is ever read. *)
Record Error := mkError { message : string }.

Inductive Completion (A : Type) : Type :=
| Normal (a : A)
| Abrupt (e : Error).
Arguments Normal {A} a.
Arguments Abrupt {A} e.

(** A handler over a world [W]: runs to a completion and a final world. *)
Definition Task (W A : Type) : Type := W -> Completion A * W.

Definition ret {W A} (a : A) : Task W A := fun w => (Normal a, w).

Definition bind {W A B} (m : Task W A) (k : A -> Task W B) : Task W B :=
  fun w =>
    match m w with
    | (Normal a, w') => k a w'
    | (Abrupt e, w') => (Abrupt e, w')
    end.

Definition throw {W A} (e : Error) : Task W A := fun w => (Abrupt e, w).

(** [try { body } catch (e) { handler e }] *)
Definition tryCatch {W A} (body : Task W A) (handler : Error -> Task W A) : Task W A :=
  fun w =>
    match body w with
    | (Normal a, w') => (Normal a, w')
    | (Abrupt e, w') => handler e w'
    end.

(** [try { body } finally { cleanup }] *)
Definition tryFinally {W A} (body : Task W A) (cleanup : Task W unit) : Task W A :=
  fun w =>
    match body w with
    | (c, w') =>
        match cleanup w' with
        | (Normal _, w'') => (c, w'')
        | (Abrupt e, w'') => (Abrupt e, w'')
        end
    end.

Definition gets {W A} (f : W -> A) : Task W A := fun w => (Normal (f w), w).
Definition modify {W} (f : W -> W) : Task W unit := fun w => (Normal tt, f w).

Definition exec {W A} (m : Task W A) (w : W) : W := snd (m w).
Definition completion {W A} (m : Task W A) (w : W) : Completion A := fst (m w).

Declare Scope task_scope.
Delimit Scope task_scope with task.
Notation "x <- m ;; k" := (bind m (fun x => k))
  (at level 61, m at next level, right associativity) : task_scope.
Notation "m ;; k" := (bind m (fun _ => k))
  (at level 61, right associativity) : task_scope.
Local Open Scope task_scope.

(* ====================================================================== *)
(** * The data service: a fake of the Supabase client *)
(* ====================================================================== *)

(** The fake keeps the persisted data (storage objects, [reports] and
    [comments] rows, live realtime channels), enforces what the migrations
    under supabase/migrations declare (NOT NULL columns and the insert
    policies), records every request with its outcome, and fails requests
    on demand through a fault schedule indexed by request number. *)
Module Supabase.

Record User := mkUser {
  user_id : string;
  user_username : option string        (* user_metadata.username *)
}.

(** [{ lat, lng }] and [{ latitude, longitude }]; coordinates are only
    stored and forwarded, and are kept as fixed-point numbers. *)
Record LatLng := mkLatLng { lat : Z; lng : Z }.
Record Coordinates := mkCoordinates { latitude : Z; longitude : Z }.

(** Value of the [location jsonb] column: the two shapes the screens write. *)
Inductive LocationJson : Type :=
| JLatLng (l : LatLng)
| JCoordinates (c : Coordinates).

(** Body of a stored object, by provenance. *)
Inductive Body : Type :=
| ArrayBufferOfBase64 (base64 : string)     (* decode(base64) *)
| BlobOfUri (uri : string).                 (* (await fetch(uri)).blob() *)

Record StoredObject := mkObject {
  obj_bucket : string;
  obj_path : string;
  obj_body : Body;
  obj_contentType : string;
  obj_owner : string
}.

(** reports(id, user_id, image_url, location, category, description, created_at) *)
Record ReportRow := mkReportRow {
  rep_id : string;
  rep_user_id : string;
  rep_image_url : string;
  rep_location : LocationJson;
  rep_category : string;
  rep_description : option string;
  rep_created_at : Z
}.

(** Record passed to [from('reports').insert]; a property that is left out
    or [undefined] is not sent. *)
Record ReportInsert := mkReportInsert {
  ins_user_id : option string;
  ins_image_url : option string;
  ins_location : option LocationJson;
  ins_category : string;
  ins_description : string
}.

(** comments(id, report_id, user_id, text, created_at) *)
Record CommentRow := mkCommentRow {
  com_id : string;
  com_report_id : string;
  com_user_id : string;
  com_text : string;
  com_created_at : Z
}.

Record CommentInsert := mkCommentInsert {
  cin_report_id : string;
  cin_text : string;
  cin_user_id : string
}.

(** Payload of a [postgres_changes] notification. *)
Inductive EventType : Type := INSERT | UPDATE | DELETE.

Record ChangePayload := mkPayload {
  eventType : EventType;
  new_record : option CommentRow;
  old_record : option CommentRow
}.

(** A subscribed realtime channel listening to [postgres_changes]. *)
Record Channel := mkChannel {
  ch_handle : nat;
  ch_topic : string;
  ch_event : string;
  ch_schema : string;
  ch_table : string;
  ch_filter : string
}.

Inductive Call : Type :=
| AuthGetSession
| AuthGetUser
| StorageUpload (bucket path : string) (body : Body)
                (contentType : string) (cacheControl : option string) (upsert : bool)
| StorageCreateSignedUrl (bucket path : string) (expiresIn : Z)
| ReportsInsert (record : ReportInsert)
| ReportsSelectAll
| ReportsSelectSingle (id : string)
| CommentsSelect (report_id : string)
| CommentsInsert (record : CommentInsert)
| ChannelSubscribe (topic filter : string)
| ChannelUnsubscribe (handle : nat)
| HttpFetch (uri : string).

Inductive Outcome : Type :=
| Fulfilled                 (* { data, error: null } *)
| Failed (e : Error)        (* { data: null, error } *)
| Threw (e : Error).        (* the promise rejected *)

Record LogEntry := mkEntry { entry_call : Call; entry_outcome : Outcome }.

(** What the service does with one request. *)
Inductive Plan : Type :=
| Proceed                   (* serve it *)
| Refuse (e : Error)        (* answer { error: e }, change nothing *)
| Crash (e : Error).        (* reject with e, change nothing *)

Record Backend := mkBackend {
  identity : option User;          (* the signed-in user, auth.uid() *)
  server_now : Z;                  (* now() of the database *)
  next_uuid : N;                   (* source of gen_random_uuid() *)
  objects : list StoredObject;     (* storage.objects, oldest first *)
  reports : list ReportRow;        (* public.reports, oldest first *)
  comments : list CommentRow;      (* public.comments, oldest first *)
  channels : list Channel;         (* live subscriptions, oldest first *)
  calls : list LogEntry;           (* requests seen, newest first *)
  faults : nat -> Plan             (* plan for the n-th request *)
}.

Definition set_identity (u : option User) (b : Backend) : Backend :=
  mkBackend u (server_now b) (next_uuid b) (objects b) (reports b)
            (comments b) (channels b) (calls b) (faults b).
Definition set_next_uuid (n : N) (b : Backend) : Backend :=
  mkBackend (identity b) (server_now b) n (objects b) (reports b)
            (comments b) (channels b) (calls b) (faults b).
Definition set_objects (o : list StoredObject) (b : Backend) : Backend :=
  mkBackend (identity b) (server_now b) (next_uuid b) o (reports b)
            (comments b) (channels b) (calls b) (faults b).
Definition set_reports (r : list ReportRow) (b : Backend) : Backend :=
  mkBackend (identity b) (server_now b) (next_uuid b) (objects b) r
            (comments b) (channels b) (calls b) (faults b).
Definition set_comments (c : list CommentRow) (b : Backend) : Backend :=
  mkBackend (identity b) (server_now b) (next_uuid b) (objects b) (reports b)
            c (channels b) (calls b) (faults b).
Definition set_channels (c : list Channel) (b : Backend) : Backend :=
  mkBackend (identity b) (server_now b) (next_uuid b) (objects b) (reports b)
            (comments b) c (calls b) (faults b).
Definition set_calls (c : list LogEntry) (b : Backend) : Backend :=
  mkBackend (identity b) (server_now b) (next_uuid b) (objects b) (reports b)
            (comments b) (channels b) c (faults b).

Definition record_call (c : Call) (o : Outcome) (b : Backend) : Backend :=
  set_calls (mkEntry c o :: calls b) b.

Inductive Reply (A : Type) : Type :=
| Ok (a : A)
| Err (e : Error)
| Rejected (e : Error).
Arguments Ok {A} a.
Arguments Err {A} e.
Arguments Rejected {A} e.

(** One request: the fault schedule is consulted first; a served request
    may still end in an error of the service's own. *)
Definition request {A} (c : Call) (serve : Backend -> (A + Error) * Backend)
  : Backend -> Reply A * Backend :=
  fun b =>
    match faults b (length (calls b)) with
    | Crash e => (Rejected e, record_call c (Threw e) b)
    | Refuse e => (Err e, record_call c (Failed e) b)
    | Proceed =>
        match serve b with
        | (inl a, b') => (Ok a, record_call c Fulfilled b')
        | (inr e, b') => (Err e, record_call c (Failed e) b')
        end
    end.

Definition supabaseUrl : string := "https://mmvajynxxlhttpfqiudx.supabase.co".

Definition uuid (n : N) : string := "uuid-" ++ Js.numberToString (Z.of_N n).

(** ** auth *)

(** [supabase.auth.getSession()]: the session's user, if any. *)
Definition auth_getSession : Backend -> Reply (option User) * Backend :=
  request AuthGetSession (fun b => (inl (identity b), b)).

(** [supabase.auth.getUser()]: without a session the client answers
    [{ data: { user: null }, error }] with its session-missing error. *)
Definition auth_getUser : Backend -> Reply (option User) * Backend :=
  request AuthGetUser
    (fun b =>
       match identity b with
       | Some u => (inl (Some u), b)
       | None => (inr (mkError "Auth session missing!"), b)
       end).

(** ** storage *)

Definition same_object (bucket path : string) (o : StoredObject) : bool :=
  (obj_bucket o =? bucket) && (obj_path o =? path).

(** [storage.from(bucket).upload(path, body, options)].  The insert policy
    on [storage.objects] admits authenticated users only. *)
Definition storage_upload (bucket path : string) (body : Body)
    (contentType : string) (cacheControl : option string) (upsert : bool)
  : Backend -> Reply unit * Backend :=
  request (StorageUpload bucket path body contentType cacheControl upsert)
    (fun b =>
       match identity b with
       | None =>
           (inr (mkError "new row violates row-level security policy"), b)
       | Some u =>
           let o := mkObject bucket path body contentType (user_id u) in
           if existsb (same_object bucket path) (objects b) then
             if upsert then
               (inl tt,
                set_objects
                  (filter (fun x => negb (same_object bucket path x)) (objects b)
                     ++ [o])%list b)
             else (inr (mkError "The resource already exists"), b)
           else (inl tt, set_objects (objects b ++ [o])%list b)
       end).

(** [storage.from(bucket).createSignedUrl(path, expiresIn)]: the data of
    the reply is the object [{ signedUrl }].  (The screen casts the reply
    to its own [StorageUploadResponse] interface, which declares a
    [publicUrl]; a cast changes no value.) *)
Definition storage_createSignedUrl (bucket path : string) (expiresIn : Z)
  : Backend -> Reply Js.Obj * Backend :=
  request (StorageCreateSignedUrl bucket path expiresIn)
    (fun b =>
       if existsb (same_object bucket path) (objects b) then
         (inl [("signedUrl",
                supabaseUrl ++ "/storage/v1/object/sign/" ++ bucket
                  ++ "/" ++ path ++ "?token=" ++ Js.numberToString expiresIn)],
          b)
       else (inr (mkError "Object not found"), b)).

(** Data of [getPublicUrl]: [{ publicUrl }]. *)
Record UrlData := mkUrlData { publicUrl : string }.

(** [storage.from(bucket).getPublicUrl(path)]: computed locally. *)
Definition storage_getPublicUrl (bucket path : string) : option UrlData :=
  Some (mkUrlData (supabaseUrl ++ "/storage/v1/object/public/" ++ bucket
                   ++ "/" ++ path)).

(** [fetch(uri)] followed by [response.blob()]; any failure rejects. *)
Definition http_fetch_blob (uri : string) : Backend -> (Body + Error) * Backend :=
  fun b =>
    match faults b (length (calls b)) with
    | Proceed => (inl (BlobOfUri uri), record_call (HttpFetch uri) Fulfilled b)
    | Refuse e | Crash e => (inr e, record_call (HttpFetch uri) (Threw e) b)
    end.

(** ** tables *)

Section Ordering.
Variable A : Type.
Variable key : A -> Z.

Fixpoint insert_asc (x : A) (l : list A) : list A :=
  match l with
  | [] => [x]
  | y :: l' => if (key x <=? key y)%Z then x :: l else y :: insert_asc x l'
  end.

(** [order(key, { ascending: true })]: a stable sort. *)
Definition order_asc (l : list A) : list A :=
  fold_right insert_asc [] l.
End Ordering.

(** [order(key, { ascending: false })] *)
Definition order_desc {A} (key : A -> Z) (l : list A) : list A :=
  order_asc (fun x => (- key x)%Z) l.

(** [from('reports').insert(record).select()]: [user_id], [image_url] and
    [location] are NOT NULL and the insert policy demands
    [auth.uid() = user_id]. *)
Definition reports_insert (p : ReportInsert)
  : Backend -> Reply (list ReportRow) * Backend :=
  request (ReportsInsert p)
    (fun b =>
       match ins_user_id p, ins_image_url p, ins_location p with
       | None, _, _ =>
           (inr (mkError
              "null value in column user_id of relation reports violates not-null constraint"), b)
       | Some _, None, _ =>
           (inr (mkError
              "null value in column image_url of relation reports violates not-null constraint"), b)
       | Some _, Some _, None =>
           (inr (mkError
              "null value in column location of relation reports violates not-null constraint"), b)
       | Some uid, Some url, Some loc =>
           match identity b with
           | Some u =>
               if user_id u =? uid then
                 let row := mkReportRow (uuid (next_uuid b)) uid url
                              loc (ins_category p)
                              (Some (ins_description p)) (server_now b) in
                 (inl [row],
                  set_next_uuid (N.succ (next_uuid b))
                    (set_reports (reports b ++ [row])%list b))
               else
                 (inr (mkError
                    "new row violates row-level security policy for table reports"), b)
           | None =>
               (inr (mkError
                  "new row violates row-level security policy for table reports"), b)
           end
       end).

(** [from('reports').select('*').order('created_at', { ascending: false })] *)
Definition reports_select_all : Backend -> Reply (list ReportRow) * Backend :=
  request ReportsSelectAll
    (fun b => (inl (order_desc rep_created_at (reports b)), b)).

(** [from('reports').select('*').eq('id', id).single()] *)
Definition reports_select_single (id : string)
  : Backend -> Reply ReportRow * Backend :=
  request (ReportsSelectSingle id)
    (fun b =>
       match filter (fun r => rep_id r =? id) (reports b) with
       | [r] => (inl r, b)
       | _ => (inr (mkError
                 "JSON object requested, multiple (or no) rows returned"), b)
       end).

(** [from('comments').select('*').eq('report_id', id)
      .order('created_at', { ascending: true })] *)
Definition comments_of (id : string) (l : list CommentRow) : list CommentRow :=
  order_asc com_created_at (filter (fun c => com_report_id c =? id) l).

Definition comments_select (id : string)
  : Backend -> Reply (list CommentRow) * Backend :=
  request (CommentsSelect id) (fun b => (inl (comments_of id (comments b)), b)).

(** [from('comments').insert(record)]: authenticated users only. *)
Definition comments_insert (p : CommentInsert)
  : Backend -> Reply unit * Backend :=
  request (CommentsInsert p)
    (fun b =>
       match identity b with
       | Some _ =>
           let row := mkCommentRow (uuid (next_uuid b)) (cin_report_id p)
                        (cin_user_id p) (cin_text p) (server_now b) in
           (inl tt,
            set_next_uuid (N.succ (next_uuid b))
              (set_comments (comments b ++ [row])%list b))
       | None =>
           (inr (mkError
              "new row violates row-level security policy for table comments"), b)
       end).

(** ** realtime *)

Definition fresh_handle (l : list Channel) : nat :=
  S (fold_right (fun c m => Nat.max (ch_handle c) m) 0 l).

(** [subscription.unsubscribe()] *)
Definition channel_unsubscribe (h : nat) : Backend -> Backend :=
  fun b =>
    record_call (ChannelUnsubscribe h) Fulfilled
      (set_channels (filter (fun c => negb (Nat.eqb (ch_handle c) h)) (channels b)) b).

(** The open channel of a topic, if there is one. *)
Definition openTopic (topic : string) (l : list Channel) : option Channel :=
  find (fun c => ch_topic c =? topic) l.

(** The client keeps one open channel per topic: before it joins, it
    unsubscribes the channel that is open on the same topic. *)
Definition leaveOpenTopic (topic : string) : Backend -> Backend :=
  fun b =>
    match openTopic topic (channels b) with
    | Some dupChannel => channel_unsubscribe (ch_handle dupChannel) b
    | None => b
    end.

(** [channel(topic).on('postgres_changes', { event, schema, table, filter },
    callback).subscribe()]: leaves the open channel of the topic, registers
    the listener and hands back its handle. *)
Definition channel_subscribe (topic event schema table filter : string)
  : Backend -> nat * Backend :=
  fun b =>
    let h := fresh_handle (channels b) in
    let b := leaveOpenTopic topic b in
    (h, record_call (ChannelSubscribe topic filter) Fulfilled
          (set_channels
             (channels b ++ [mkChannel h topic event schema table filter])%list b)).

End Supabase.

(* ====================================================================== *)
(** * Worlds: screen state, data service, user-visible events *)
(* ====================================================================== *)

Inductive UiEvent : Type :=
| Alert (title body : string)          (* Alert.alert(title, body) *)
| Navigate (route : string)            (* navigation.navigate(route) *)
| GoBack.                              (* navigation.goBack() *)

Record World (St : Type) := mkWorld {
  screen : St;                         (* the component's useState cells *)
  backend : Supabase.Backend;
  ui : list UiEvent;                   (* newest first *)
  now : Z                              (* the device clock, milliseconds *)
}.

(** The destructured [{ data, error }] of a Supabase reply. *)
Record Response (A : Type) := mkResponse {
  res_data : option A;
  res_error : option Error
}.

Section Primitives.
Variable St : Type.

Definition set_screen (s : St) (w : World St) : World St :=
  mkWorld s (backend w) (ui w) (now w).
Definition set_backend (b : Supabase.Backend) (w : World St) : World St :=
  mkWorld (screen w) b (ui w) (now w).
Definition set_ui (u : list UiEvent) (w : World St) : World St :=
  mkWorld (screen w) (backend w) u (now w).

(** [await request]: a rejected promise throws at the await. *)
Definition await {A} (op : Supabase.Backend -> Supabase.Reply A * Supabase.Backend)
  : Task (World St) (Response A) :=
  fun w =>
    match op (backend w) with
    | (Supabase.Ok a, b) => (Normal (mkResponse (Some a) None), set_backend b w)
    | (Supabase.Err e, b) => (Normal (mkResponse None (Some e)), set_backend b w)
    | (Supabase.Rejected e, b) => (Abrupt e, set_backend b w)
    end.

(** [await promise] of a plain promise: its value, or a throw. *)
Definition awaitValue {A} (op : Supabase.Backend -> (A + Error) * Supabase.Backend)
  : Task (World St) A :=
  fun w =>
    match op (backend w) with
    | (inl a, b) => (Normal a, set_backend b w)
    | (inr e, b) => (Abrupt e, set_backend b w)
    end.

(** A synchronous client call. *)
Definition perform {A} (op : Supabase.Backend -> A * Supabase.Backend)
  : Task (World St) A :=
  fun w => match op (backend w) with (a, b) => (Normal a, set_backend b w) end.

Definition getState : Task (World St) St := gets (@screen St).
Definition setState (f : St -> St) : Task (World St) unit :=
  modify (fun w => set_screen (f (screen w)) w).
Definition alert (title body : string) : Task (World St) unit :=
  modify (fun w => set_ui (Alert title body :: ui w) w).
Definition navigate (route : string) : Task (World St) unit :=
  modify (fun w => set_ui (Navigate route :: ui w) w).
Definition goBack : Task (World St) unit :=
  modify (fun w => set_ui (GoBack :: ui w) w).
Definition Date_now : Task (World St) Z := gets (@now St).

End Primitives.

(** [const { data: { user } } = await supabase.auth.getUser()] *)
Definition userOf (r : Response (option Supabase.User)) : option Supabase.User :=
  match res_data r with
  | Some u => u
  | None => None
  end.

(** [user?.user_metadata?.username] *)
Definition usernameOf (user : option Supabase.User) : option string :=
  match user with
  | Some u => Supabase.user_username u
  | None => None
  end.

(** [row_user_id === user?.id] *)
Definition isUser (row_user_id : string) (user : option Supabase.User) : bool :=
  match user with
  | Some u => row_user_id =? Supabase.user_id u
  | None => false
  end.

Arguments await {St A} op.
Arguments awaitValue {St A} op.
Arguments perform {St A} op.
Arguments getState {St}.
Arguments setState {St} f.
Arguments alert {St} title body.
Arguments navigate {St} route.
Arguments goBack {St}.
Arguments Date_now {St}.

(* ====================================================================== *)
(** * ReportScreen (src/screens/ReportScreen.tsx) *)
(* ====================================================================== *)

Module ReportScreen.
Import Supabase.

Record State := mkState {
  image : option string;               (* base64 of the picked photo *)
  location : option LatLng;
  category : string;
  description : string;
  loading : bool;
  error : option string
}.

Definition setLoading (v : bool) : Task (World State) unit :=
  setState (fun s => mkState (image s) (location s) (category s)
                             (description s) v (error s)).

Definition isSome {A} (o : option A) : bool :=
  match o with Some _ => true | None => false end.

(** The object path of the upload: [`reports/${Date.now()}.jpg`]. *)
Definition imagePath (t : Z) : string :=
  "reports/" ++ Js.numberToString t ++ ".jpg".

(** The text of the final error alert. *)
Definition submitErrorText (m : string) : string :=
  "Failed to submit report: " ++ m ++ Js.newline ++ Js.newline
  ++ "Please try again or contact support if the problem persists.".

Definition handleSubmit : Task (World State) unit :=
  st <- getState ;;
  if negb (Js.truthyOpt (image st)) || negb (isSome (location st))
     || negb (Js.truthy (category st))
  then alert "Error" "Please provide an image, location, and category"
  else
    setLoading true ;;
    tryFinally
      (tryCatch
         ((* Check if user is authenticated *)
          s <- await auth_getSession ;;
          match res_error s, res_data s with
          | None, Some (Some session_user) =>
              t <- Date_now ;;
              let imagePath := imagePath t in
              tryCatch
                (match image st with
                 | Some img =>
                     if Js.truthy img then
                       (* Upload using base64 data directly *)
                       up <- await (storage_upload "reports" imagePath
                                      (ArrayBufferOfBase64 img)
                                      "image/jpeg" (Some "3600") false) ;;
                       match res_error up with
                       | Some uploadError =>
                           throw (mkError ("Failed to upload image: "
                                           ++ message uploadError))
                       | None =>
                           url <- await (storage_createSignedUrl "reports"
                                           imagePath 3600) ;;
                           match res_error url, res_data url with
                           | Some urlError, _ =>
                               throw (mkError ("Failed to get public URL: "
                                               ++ message urlError))
                           | None, None =>
                               throw (mkError
                                        "Cannot read property 'publicUrl' of null")
                           | None, Some urlData =>
                               let publicUrl := Js.prop "publicUrl" urlData in
                               (* Save report data *)
                               ins <- await
                                 (reports_insert
                                    (mkReportInsert
                                       (Some (user_id session_user))
                                       publicUrl
                                       (option_map JLatLng (location st))
                                       (category st) (description st))) ;;
                               match res_error ins with
                               | Some insertError =>
                                   throw (mkError ("Failed to save report: "
                                                   ++ message insertError))
                               | None =>
                                   alert "Success" "Report submitted successfully" ;;
                                   navigate "Home"
                               end
                           end
                       end
                     else throw (mkError "Image data is missing")
                 | None => throw (mkError "Image data is missing")
                 end)
                (fun fetchError =>
                   throw (mkError ("Failed to process image: "
                                   ++ message fetchError)))
          | _, _ => throw (mkError "You must be logged in to submit a report")
          end)
         (fun error => alert "Error" (submitErrorText (message error))))
      (setLoading false).

End ReportScreen.

(* ====================================================================== *)
(** * CreateReportScreen (src/screens/ReportScreen.tsx, second module) *)
(* ====================================================================== *)

Module CreateReportScreen.
Import Supabase.

Record Report := mkReport {
  image : option string;               (* uri of the picked photo *)
  imageBase64 : option string;
  location : option Coordinates;
  category : string;
  description : string
}.

Record State := mkState {
  report : Report;
  loading : bool;
  error : option string;
  showSuccess : bool
}.

Definition setLoading (v : bool) : Task (World State) unit :=
  setState (fun s => mkState (report s) v (error s) (showSuccess s)).

(** [`${currentUser.id}/${timestamp}.jpg`] *)
Definition filePath (currentUser : User) (timestamp : Z) : string :=
  user_id currentUser ++ "/" ++ Js.numberToString timestamp ++ ".jpg".

Definition submitErrorText (m : string) : string :=
  "Failed to submit report: " ++ m ++ Js.newline ++ Js.newline
  ++ "Please try again or contact support if the problem persists.".

Definition handleSubmit : Task (World State) unit :=
  st <- getState ;;
  let report := report st in
  match image report, imageBase64 report with
  | Some img, Some base64Data =>
      if Js.truthy img && Js.truthy base64Data then
        tryFinally
          (tryCatch
             (setLoading true ;;
              (* Get current user *)
              u <- await auth_getUser ;;
              match res_error u, res_data u with
              | None, Some (Some currentUser) =>
                  timestamp <- Date_now ;;
                  let filePath := filePath currentUser timestamp in
                  tryCatch
                    (up <- await (storage_upload "reports" filePath
                                    (ArrayBufferOfBase64 base64Data)
                                    "image/jpeg" None false) ;;
                     match res_error up with
                     | Some uploadError =>
                         throw (mkError ("Failed to upload image: "
                                         ++ message uploadError))
                     | None =>
                         match storage_getPublicUrl "reports" filePath with
                         | Some urlData =>
                             if Js.truthy (publicUrl urlData) then
                               (* Create report with default location if none available *)
                               let reportData :=
                                 mkReportInsert
                                   (Some (user_id currentUser))
                                   (Some (publicUrl urlData))
                                   (Some (JLatLng
                                      match location report with
                                      | Some l => mkLatLng (latitude l) (longitude l)
                                      | None => mkLatLng 0 0
                                      end))
                                   (category report)
                                   (Js.orElse (Some (description report)) "") in
                               ins <- await (reports_insert reportData) ;;
                               match res_error ins with
                               | Some insertError =>
                                   throw (mkError ("Failed to save report: "
                                                   ++ message insertError))
                               | None =>
                                   alert "Success" "Report submitted successfully" ;;
                                   goBack
                               end
                             else
                               throw (mkError
                                        "Failed to get public URL for uploaded image")
                         | None =>
                             throw (mkError
                                      "Failed to get public URL for uploaded image")
                         end
                     end)
                    (fun fetchError =>
                       throw (mkError ("Failed to process image: "
                                       ++ message fetchError)))
              | userError, _ =>
                  throw (mkError
                           ("User not authenticated: "
                            ++ Js.orElse (option_map message userError)
                                         "Unknown error"))
              end)
             (fun error => alert "Error" (submitErrorText (message error))))
          (setLoading false)
      else alert "Error" "Please select an image"
  | _, _ => alert "Error" "Please select an image"
  end.

End CreateReportScreen.

(* ====================================================================== *)
(** * The tab variant of the report screen (screens/tabs) *)
(* ====================================================================== *)

Module TabsReportScreen.
Import Supabase.

Record Report := mkReport {
  image : option string;               (* uri of the picked photo *)
  location : option Coordinates;
  category : string;
  description : string
}.

Record State := mkState {
  report : Report;
  loading : bool;
  error : option string
}.

Definition setReport (r : Report) : Task (World State) unit :=
  setState (fun s => mkState r (loading s) (error s)).
Definition setLoading (v : bool) : Task (World State) unit :=
  setState (fun s => mkState (report s) v (error s)).
Definition setError (e : option string) : Task (World State) unit :=
  setState (fun s => mkState (report s) (loading s) e).

(** [CATEGORIES[0].value] *)
Definition defaultCategory : string := "pollution".

Definition handleSubmit : Task (World State) unit :=
  st <- getState ;;
  let report := report st in
  match image report, location report with
  | Some img, Some loc =>
      if Js.truthy img then
        setLoading true ;;
        setError None ;;
        tryFinally
          (tryCatch
             ((* Get the image data *)
              blob <- awaitValue (http_fetch_blob img) ;;
              (* Upload image to Supabase Storage *)
              timestamp <- Date_now ;;
              let fileName := Js.numberToString timestamp ++ ".jpg" in
              let filePath := "reports/" ++ fileName in
              up <- await (storage_upload "reports" filePath blob
                             "image/jpeg" None false) ;;
              match res_error up with
              | Some uploadError => throw uploadError
              | None =>
                  (* Create report record in database *)
                  ins <- await (reports_insert
                                  (mkReportInsert None (Some filePath)
                                     (Some (JCoordinates loc))
                                     (category report)
                                     (description report))) ;;
                  match res_error ins with
                  | Some reportError => throw reportError
                  | None =>
                      (* Reset form *)
                      setReport (mkReport None None defaultCategory "")
                  end
              end)
             (fun err =>
                setError (Some (Js.orElse (Some (message err))
                                          "Failed to submit report"))))
          (setLoading false)
      else setError (Some "Please provide an image and location")
  | _, _ => setError (Some "Please provide an image and location")
  end.

End TabsReportScreen.

(* ====================================================================== *)
(** * HomeScreen (src/screens/HomeScreen.tsx) *)
(* ====================================================================== *)

Module HomeScreen.
Import Supabase.

(** A fetched row spread together with its [user: { username }]. *)
Record Report := mkReport {
  row : ReportRow;
  username : string
}.

Definition description (r : Report) : option string := rep_description (row r).
Definition category (r : Report) : string := rep_category (row r).
Definition created_at (r : Report) : Z := rep_created_at (row r).

Record Category := mkCategory { id : string; label : string }.

Definition CATEGORIES : list Category :=
  [ mkCategory "pollution" "Pollution";
    mkCategory "deforestation" "Deforestation";
    mkCategory "waste" "Illegal Waste";
    mkCategory "other" "Other" ].

Record State := mkState {
  reports : list Report;
  filteredReports : list Report;
  loading : bool;
  error : option string;
  refreshing : bool;
  searchQuery : string;
  selectedCategory : option string;
  menuVisible : bool
}.

Definition setReports (v : list Report) : Task (World State) unit :=
  setState (fun s => mkState v (filteredReports s) (loading s) (error s)
                       (refreshing s) (searchQuery s) (selectedCategory s)
                       (menuVisible s)).
Definition setFilteredReports (v : list Report) : Task (World State) unit :=
  setState (fun s => mkState (reports s) v (loading s) (error s)
                       (refreshing s) (searchQuery s) (selectedCategory s)
                       (menuVisible s)).
Definition setLoading (v : bool) : Task (World State) unit :=
  setState (fun s => mkState (reports s) (filteredReports s) v (error s)
                       (refreshing s) (searchQuery s) (selectedCategory s)
                       (menuVisible s)).
Definition setError (v : option string) : Task (World State) unit :=
  setState (fun s => mkState (reports s) (filteredReports s) (loading s) v
                       (refreshing s) (searchQuery s) (selectedCategory s)
                       (menuVisible s)).
Definition setRefreshing (v : bool) : Task (World State) unit :=
  setState (fun s => mkState (reports s) (filteredReports s) (loading s) (error s)
                       v (searchQuery s) (selectedCategory s) (menuVisible s)).
Definition setSearchQuery (v : string) : Task (World State) unit :=
  setState (fun s => mkState (reports s) (filteredReports s) (loading s) (error s)
                       (refreshing s) v (selectedCategory s) (menuVisible s)).

(** The row with its author's display name, as [fetchReports] builds it. *)
Definition withUser (user : option User) (report : ReportRow) : Report :=
  let currentUsername := Js.orElse (usernameOf user) "Anonymous" in
  mkReport report
    (if isUser (rep_user_id report) user then currentUsername else "Anonymous").

Definition fetchReports : Task (World State) unit :=
  tryFinally
    (tryCatch
       (setLoading true ;;
        setError None ;;
        r <- await reports_select_all ;;
        match res_error r with
        | Some fetchError => throw fetchError
        | None =>
            (* Get current user data *)
            u <- await auth_getUser ;;
            let user := userOf u in
            (* Transform reports with user data *)
            let reportsWithUsers :=
              map (withUser user)
                  (match res_data r with Some rows => rows | None => [] end) in
            setReports reportsWithUsers ;;
            setFilteredReports reportsWithUsers
        end)
       (fun err => setError (Some "Failed to load reports")))
    (setLoading false ;; setRefreshing false).

(** The predicate of the search filter:
    [description?.toLowerCase().includes(q.toLowerCase()) ||
     category?.toLowerCase().includes(q.toLowerCase())]. *)
Definition matchesQuery (searchQuery : string) (report : Report) : bool :=
  match description report with
  | Some d => Js.includes (Js.toLowerCase d) (Js.toLowerCase searchQuery)
  | None => false
  end
  || Js.includes (Js.toLowerCase (category report)) (Js.toLowerCase searchQuery).

(** [report.category?.toLowerCase() === categoryId?.toLowerCase()] *)
Definition matchesCategory (categoryId : option string) (report : Report) : bool :=
  match categoryId with
  | Some c => Js.toLowerCase (category report) =? Js.toLowerCase c
  | None => false
  end.

Definition filterReports : Task (World State) unit :=
  st <- getState ;;
  let filtered := reports st in
  (* Filter by search query *)
  let filtered :=
    if Js.truthy (searchQuery st)
    then filter (matchesQuery (searchQuery st)) filtered
    else filtered in
  (* Filter by category *)
  let filtered :=
    match selectedCategory st with
    | Some selected =>
        if Js.truthy selected then
          let categoryId :=
            option_map id (find (fun cat => label cat =? selected) CATEGORIES) in
          filter (matchesCategory categoryId) filtered
        else filtered
    | None => filtered
    end in
  setFilteredReports filtered.

End HomeScreen.

(* ====================================================================== *)
(** * ReportDetailScreen (screens/ReportDetailScreen.tsx) *)
(* ====================================================================== *)

Module ReportDetailScreen.
Import Supabase.

Record Comment := mkComment {
  id : string;
  text : string;
  created_at : Z;
  user_id : string;
  username : string                    (* user.username *)
}.

Record Report := mkReport {
  report_id : string;
  image_url : string;
  category : string;
  description : option string;
  report_created_at : Z;
  location : LocationJson;
  report_username : string             (* user.username *)
}.

Record State := mkState {
  report : option Report;
  comments : list Comment;
  newComment : string;
  loading : bool;
  error : option string;
  mapError : bool
}.

(** The cells as [useState] initialises them. *)
Definition initialState : State := mkState None [] "" false None false.

Definition setReport (v : option Report) : Task (World State) unit :=
  setState (fun s => mkState v (comments s) (newComment s) (loading s)
                       (error s) (mapError s)).
Definition setComments (v : list Comment) : Task (World State) unit :=
  setState (fun s => mkState (report s) v (newComment s) (loading s)
                       (error s) (mapError s)).
Definition setNewComment (v : string) : Task (World State) unit :=
  setState (fun s => mkState (report s) (comments s) v (loading s)
                       (error s) (mapError s)).
Definition setLoading (v : bool) : Task (World State) unit :=
  setState (fun s => mkState (report s) (comments s) (newComment s) v
                       (error s) (mapError s)).
Definition setError (v : option string) : Task (World State) unit :=
  setState (fun s => mkState (report s) (comments s) (newComment s) (loading s)
                       v (mapError s)).

(** [route.params.id] is the parameter [id] of every handler. *)

Definition fetchReport (id : string) : Task (World State) unit :=
  tryCatch
    (r <- await (reports_select_single id) ;;
     match res_error r, res_data r with
     | Some reportError, _ => setError (Some "Failed to load report")
     | None, None => setError (Some "Report not found")
     | None, Some reportData =>
         (* Get user data from auth.users *)
         u <- await auth_getUser ;;
         let username := Js.orElse (usernameOf (userOf u)) "Unknown User" in
         (* Transform the data to match our Report type; the location
            column is NOT NULL, so the default for a missing one is dead *)
         setReport (Some (mkReport (rep_id reportData) (rep_image_url reportData)
                            (rep_category reportData) (rep_description reportData)
                            (rep_created_at reportData) (rep_location reportData)
                            username))
     end)
    (fun error => setError (Some "Failed to load report details")).

(** One fetched comment with its display name. *)
Definition withUser (user : option User) (comment : CommentRow) : Comment :=
  let currentUsername := Js.orElse (usernameOf user) "Anonymous" in
  mkComment (com_id comment) (com_text comment) (com_created_at comment)
            (com_user_id comment)
            (if isUser (com_user_id comment) user
             then currentUsername else "Anonymous").

Definition fetchComments (id : string) : Task (World State) unit :=
  tryCatch
    (r <- await (comments_select id) ;;
     match res_error r with
     | Some commentsError => ret tt
     | None =>
         (* Get current user data *)
         u <- await auth_getUser ;;
         let user := userOf u in
         (* Map comments with user data *)
         let commentsWithUsers :=
           map (withUser user)
               (match res_data r with Some rows => rows | None => [] end) in
         setComments commentsWithUsers
     end)
    (fun error => ret tt).

(** The function a subscription hands back: [() => subscription.unsubscribe()]. *)
Inductive Cleanup : Type :=
| Unsubscribe (handle : nat).

Definition runCleanup (c : Cleanup) : Task (World State) unit :=
  match c with
  | Unsubscribe h => perform (fun b => (tt, channel_unsubscribe h b))
  end.

(** The listener registered on the channel: [() => { fetchComments(); }].
    It takes no argument, so the payload never reaches it. *)
Definition onPostgresChanges (id : string) (payload : ChangePayload)
  : Task (World State) unit :=
  fetchComments id.

Definition subscribeToComments (id : string) : Task (World State) Cleanup :=
  subscription <- perform (channel_subscribe "comments" "*" "public" "comments"
                             ("report_id=eq." ++ id)) ;;
  ret (Unsubscribe subscription).

(** The body of [useEffect(() => { ... }, [id])]: three calls and no
    [return], so the effect yields no cleanup.  None of the calls is
    awaited.  The two fetches log and stop at their first [await], which
    sends its query only once the body has returned, so the subscription
    is the first thing sent; the fetches then run on, and as they write
    different cells ([report] and [error], [comments]) they are run here
    one after the other. *)
Definition mountEffect (id : string) : Task (World State) (option Cleanup) :=
  _ <- subscribeToComments id ;;
  fetchReport id ;;
  fetchComments id ;;
  ret None.

(** What React does with an effect's result when the view goes away. *)
Definition unmountEffect (cleanup : option Cleanup) : Task (World State) unit :=
  match cleanup with
  | Some c => runCleanup c
  | None => ret tt
  end.

(** Entering the view mounts a fresh component and runs its effect. *)
Definition enter (id : string) : Task (World State) (option Cleanup) :=
  setState (fun _ => initialState) ;;
  mountEffect id.

(** One enter/exit cycle, and [n] of them in a row. *)
Definition visit (id : string) : Task (World State) unit :=
  cleanup <- enter id ;;
  unmountEffect cleanup.

Fixpoint visits (n : nat) (id : string) : Task (World State) unit :=
  match n with
  | O => ret tt
  | S n' => visit id ;; visits n' id
  end.

Definition handleAddComment (id : string) : Task (World State) unit :=
  st <- getState ;;
  let newComment := newComment st in
  if negb (Js.truthy (Js.trim newComment)) then ret tt
  else
    setLoading true ;;
    tryFinally
      (tryCatch
         (u <- await auth_getUser ;;
          match userOf u with
          | None => setError (Some "Please sign in to comment")
          | Some user =>
              ins <- await (comments_insert
                              (mkCommentInsert id (Js.trim newComment)
                                               (Supabase.user_id user))) ;;
              match res_error ins with
              | Some insertError => setError (Some "Failed to add comment")
              | None =>
                  setNewComment "" ;;
                  fetchComments id (* Refresh comments *)
              end
          end)
         (fun error => setError (Some "Failed to add comment")))
      (setLoading false).

End ReportDetailScreen.

(* ====================================================================== *)
(** * Observations the statements are written with *)
(* ====================================================================== *)

Module Observe.
Import Supabase.

(** Strings made of white space only (the empty string included). *)
Fixpoint whitespaceOnly (s : string) : bool :=
  match s with
  | EmptyString => true
  | String c s' => Js.isWhiteSpace c && whitespaceOnly s'
  end.

(** [hay] contains [needle] as a substring, letter case aside. *)
Definition ContainsCI (hay needle : string) : Prop :=
  exists pre suf,
    Js.toLowerCase hay = pre ++ Js.toLowerCase needle ++ suf.

Definition ascending {A} (key : A -> Z) (x y : A) : Prop := (key x <= key y)%Z.
Definition descending {A} (key : A -> Z) (x y : A) : Prop := (key y <= key x)%Z.

(** The requests a run has added to the log, newest first. *)
Definition issued (before after : Backend) : list LogEntry :=
  firstn (length (calls after) - length (calls before)) (calls after).

Definition isAuth (e : LogEntry) : bool :=
  match entry_call e with
  | AuthGetSession | AuthGetUser => true
  | _ => false
  end.
Definition isUpload (e : LogEntry) : bool :=
  match entry_call e with StorageUpload _ _ _ _ _ _ => true | _ => false end.
Definition isSignedUrl (e : LogEntry) : bool :=
  match entry_call e with StorageCreateSignedUrl _ _ _ => true | _ => false end.
Definition isReportsInsert (e : LogEntry) : bool :=
  match entry_call e with ReportsInsert _ => true | _ => false end.
Definition isCommentsInsert (e : LogEntry) : bool :=
  match entry_call e with CommentsInsert _ => true | _ => false end.

Definition fulfilled (e : LogEntry) : bool :=
  match entry_outcome e with Fulfilled => true | _ => false end.
(** The request was answered with [{ error }]. *)
Definition errored (e : LogEntry) : bool :=
  match entry_outcome e with Failed _ => true | _ => false end.
(** The promise of the request rejected. *)
Definition threw (e : LogEntry) : bool :=
  match entry_outcome e with Threw _ => true | _ => false end.
(** The request was answered with an error or its promise rejected. *)
Definition failed (e : LogEntry) : bool := negb (fulfilled e).

(** The feed's text filter in the words of the spec: the description or
    the category contains the text, letter case aside. *)
Definition TextMatches (text : string) (r : HomeScreen.Report) : Prop :=
  (exists d, HomeScreen.description r = Some d /\ ContainsCI d text)
  \/ ContainsCI (HomeScreen.category r) text.

(** The live subscriptions on the comments of report [id]. *)
Definition watching (id : string) (b : Backend) : list Channel :=
  filter (fun c => ch_filter c =? "report_id=eq." ++ id) (channels b).

(** The live subscriptions on a topic. *)
Definition onTopic (topic : string) (b : Backend) : list Channel :=
  filter (fun c => ch_topic c =? topic) (channels b).

End Observe.

(** Concrete worlds for the examples. *)
Module Samples.
Import Supabase.

Definition alice : User := mkUser "alice" (Some "Alice").
Definition bob : User := mkUser "bob" None.

Definition never : nat -> Plan := fun _ => Proceed.
(** The [n]-th request is answered with an error. *)
Definition refuse_at (n : nat) (m : string) : nat -> Plan :=
  fun k => if Nat.eqb k n then Refuse (mkError m) else Proceed.
(** The promise of the [n]-th request rejects. *)
Definition crash_at (n : nat) (m : string) : nat -> Plan :=
  fun k => if Nat.eqb k n then Crash (mkError m) else Proceed.

(** An empty project with [who] signed in. *)
Definition service (who : option User) (f : nat -> Plan) : Backend :=
  mkBackend who 1000 0 [] [] [] [] [] f.

Definition photo : string := "/9j/4AAQSkZJRg==".

Definition filled : ReportScreen.State :=
  ReportScreen.mkState (Some photo) (Some (mkLatLng 48858370 2294481))
    "Pollution" "Oil on the river bank" false None.

Definition without_location : ReportScreen.State :=
  ReportScreen.mkState (Some photo) None "Pollution" "" false None.

Definition noon : Z := 1700000000000.

Definition photo_uri : string := "file:///data/cache/photo-1.jpg".

Definition tab_filled : TabsReportScreen.State :=
  TabsReportScreen.mkState
    (TabsReportScreen.mkReport (Some photo_uri)
       (Some (mkCoordinates 48858370 2294481)) "pollution" "Oil on the river bank")
    false None.

(** Three reports, stored in insertion order. *)
Definition feed : list ReportRow :=
  [ mkReportRow "r1" "alice" "https://cdn/r1.jpg" (JLatLng (mkLatLng 1 1))
      "waste" (Some "Plastic bottles by the lake") 100;
    mkReportRow "r2" "bob" "https://cdn/r2.jpg" (JLatLng (mkLatLng 2 2))
      "pollution" None 300;
    mkReportRow "r3" "bob" "https://cdn/r3.jpg" (JLatLng (mkLatLng 3 3))
      "pollution" (Some "burning PLASTIC behind the mill") 200 ].

(** Comments on two reports, stored out of chronological order. *)
Definition thread : list CommentRow :=
  [ mkCommentRow "c1" "r1" "bob" "Still there today" 50;
    mkCommentRow "c2" "r2" "alice" "Reported to the council" 20;
    mkCommentRow "c3" "r1" "alice" "Seen it too" 10 ].

Definition home_initial : HomeScreen.State :=
  HomeScreen.mkState [] [] false None false "" None false.

(** A detail view holding a stale comment and the draft [draft]. *)
Definition detail_with_draft (draft : string) : ReportDetailScreen.State :=
  ReportDetailScreen.mkState None
    [ReportDetailScreen.mkComment "c0" "deleted since" 5 "bob" "Anonymous"]
    draft false None false.

Definition create_without_location : CreateReportScreen.State :=
  CreateReportScreen.mkState
    (CreateReportScreen.mkReport (Some photo_uri) (Some photo) None
       "waste" "")
    false None false.

Definition create_filled : CreateReportScreen.State :=
  CreateReportScreen.mkState
    (CreateReportScreen.mkReport (Some photo_uri) (Some photo)
       (Some (mkCoordinates 48858370 2294481)) "pollution" "Oil on the river bank")
    false None false.

End Samples.

(* ====================================================================== *)
(** * The handset: permissions, image picker, geolocation *)
(* ====================================================================== *)

(** The platform services the screens call ([Platform], [PermissionsAndroid],
    react-native-image-picker, [Geolocation]), as a fake that answers from a
    script and records what was asked of it. *)
Module Device.

Inductive OS : Type := Android | IOS.

Inductive Permission : Type := CAMERA | ACCESS_FINE_LOCATION.

(** [PermissionsAndroid.RESULTS] *)
Inductive PermissionStatus : Type := GRANTED | DENIED | NEVER_ASK_AGAIN.

Definition isGranted (s : PermissionStatus) : bool :=
  match s with GRANTED => true | _ => false end.

(** One entry of [result.assets]. *)
Record Asset := mkAsset {
  asset_uri : option string;
  asset_base64 : option string
}.

Record ImagePickerResponse := mkPicked {
  didCancel : bool;
  errorCode : option string;
  errorMessage : option string;
  assets : option (list Asset)
}.

(** Options of [launchCamera] / [launchImageLibrary]; the quality in
    hundredths. *)
Record PickerOptions := mkPickerOptions {
  quality : Z;
  includeBase64 : bool;
  saveToPhotos : option bool
}.

Record GeoOptions := mkGeoOptions {
  enableHighAccuracy : bool;
  timeout : option Z;
  maximumAge : option Z
}.

(** [GeolocationError]: 1 PERMISSION_DENIED, 2 POSITION_UNAVAILABLE,
    3 TIMEOUT. *)
Record GeoError := mkGeoError { geo_code : Z; geo_message : string }.

Inductive GeoResult : Type :=
| Fix (coords : Supabase.Coordinates)
| NoFix (e : GeoError).

Inductive Use : Type :=
| AskedPermission (p : Permission)
| LaunchedCamera (o : PickerOptions)
| LaunchedImageLibrary (o : PickerOptions)
| AskedPosition (o : GeoOptions).

Record Phone := mkPhone {
  os : OS;
  permission_answer : Permission -> PermissionStatus + Error;
  camera_answer : ImagePickerResponse + Error;
  library_answer : ImagePickerResponse + Error;
  position_answer : GeoResult;
  used : list Use                      (* newest first *)
}.

Definition record_use (u : Use) (p : Phone) : Phone :=
  mkPhone (os p) (permission_answer p) (camera_answer p) (library_answer p)
          (position_answer p) (u :: used p).

(** A screen's world together with the handset it runs on. *)
Record Handset (St : Type) := mkHandset {
  app : World St;
  phone : Phone
}.

Section Calls.
Variable St : Type.

Definition set_app (a : World St) (h : Handset St) : Handset St :=
  mkHandset a (phone h).
Definition set_phone (p : Phone) (h : Handset St) : Handset St :=
  mkHandset (app h) p.

(** A handler of the screen, run on the handset. *)
Definition onApp {A} (m : Task (World St) A) : Task (Handset St) A :=
  fun h => match m (app h) with (c, a) => (c, set_app a h) end.

(** [Platform.OS] *)
Definition Platform_OS : Task (Handset St) OS := gets (fun h => os (phone h)).

(** [await PermissionsAndroid.request(permission, rationale)] *)
Definition PermissionsAndroid_request (p : Permission)
  : Task (Handset St) PermissionStatus :=
  fun h =>
    let ph := record_use (AskedPermission p) (phone h) in
    match permission_answer (phone h) p with
    | inl s => (Normal s, set_phone ph h)
    | inr e => (Abrupt e, set_phone ph h)
    end.

(** [await launchCamera(options)] *)
Definition launchCamera (o : PickerOptions)
  : Task (Handset St) ImagePickerResponse :=
  fun h =>
    let ph := record_use (LaunchedCamera o) (phone h) in
    match camera_answer (phone h) with
    | inl r => (Normal r, set_phone ph h)
    | inr e => (Abrupt e, set_phone ph h)
    end.

(** [await launchImageLibrary(options)] *)
Definition launchImageLibrary (o : PickerOptions)
  : Task (Handset St) ImagePickerResponse :=
  fun h =>
    let ph := record_use (LaunchedImageLibrary o) (phone h) in
    match library_answer (phone h) with
    | inl r => (Normal r, set_phone ph h)
    | inr e => (Abrupt e, set_phone ph h)
    end.

(** [Geolocation.getCurrentPosition(success, error, options)]: the answer
    is handed to one of the two callbacks. *)
Definition Geolocation_getCurrentPosition
    (success : Supabase.Coordinates -> Task (Handset St) unit)
    (error : GeoError -> Task (Handset St) unit)
    (o : GeoOptions) : Task (Handset St) unit :=
  fun h =>
    let h' := set_phone (record_use (AskedPosition o) (phone h)) h in
    match position_answer (phone h) with
    | Fix coords => success coords h'
    | NoFix e => error e h'
    end.

End Calls.

Arguments onApp {St A} m.
Arguments Platform_OS {St}.
Arguments PermissionsAndroid_request {St} p.
Arguments launchCamera {St} o.
Arguments launchImageLibrary {St} o.
Arguments Geolocation_getCurrentPosition {St} success error o.

(** [`${value}`] of a possibly-undefined string. *)
Definition showOpt (s : option string) : string :=
  match s with Some s => s | None => "undefined" end.

(** [result.assets && result.assets[0]] / [result.assets?.[0]] *)
Definition firstAsset (r : ImagePickerResponse) : option Asset :=
  match assets r with
  | Some (a :: _) => Some a
  | _ => None
  end.

End Device.

(* ====================================================================== *)
(** * ReportScreen: taking the photo and the position *)
(* ====================================================================== *)

Module ReportScreenCapture.
Import Supabase Device ReportScreen.

Definition setImage (v : option string) : Task (World State) unit :=
  setState (fun s => mkState v (location s) (category s) (description s)
                       (loading s) (error s)).
Definition setLocation (v : option LatLng) : Task (World State) unit :=
  setState (fun s => mkState (image s) v (category s) (description s)
                       (loading s) (error s)).
Definition setCategory (v : string) : Task (World State) unit :=
  setState (fun s => mkState (image s) (location s) v (description s)
                       (loading s) (error s)).
Definition setDescription (v : string) : Task (World State) unit :=
  setState (fun s => mkState (image s) (location s) (category s) v
                       (loading s) (error s)).

Definition requestCameraPermission : Task (Handset State) bool :=
  platform <- Platform_OS ;;
  match platform with
  | Android =>
      tryCatch
        (granted <- PermissionsAndroid_request CAMERA ;;
         ret (isGranted granted))
        (fun err => ret false)
  | IOS => ret true
  end.

Definition getCurrentLocation : Task (Handset State) unit :=
  Geolocation_getCurrentPosition
    (fun position =>
       onApp (setLocation (Some (mkLatLng (latitude position)
                                          (longitude position)))))
    (fun error => onApp (alert "Error" (geo_message error)))
    (mkGeoOptions true None None).

Definition takePhoto : Task (Handset State) unit :=
  tryCatch
    (hasPermission <- requestCameraPermission ;;
     if negb hasPermission then
       onApp (alert "Permission Denied"
                    "Camera permission is required to take photos")
     else
       result <- launchCamera (mkPickerOptions 80 true None) ;;
       if didCancel result then
         onApp (alert "Cancelled" "You cancelled taking the photo")
       else if Js.truthyOpt (errorCode result) then
         onApp (alert "Error" ("Failed to take photo: "
                               ++ showOpt (errorMessage result)))
       else
         match firstAsset result with
         | Some asset =>
             onApp (setImage (asset_base64 asset)) ;;
             getCurrentLocation
         | None => ret tt
         end)
    (fun error =>
       onApp (alert "Error" "Failed to access camera. Please try again.")).

Definition pickImage : Task (Handset State) unit :=
  result <- launchImageLibrary (mkPickerOptions 80 true None) ;;
  match firstAsset result with
  | Some asset =>
      onApp (setImage (asset_base64 asset)) ;;
      getCurrentLocation
  | None => ret tt
  end.

End ReportScreenCapture.

(* ====================================================================== *)
(** * CreateReportScreen: form reset, position and image picker *)
(* ====================================================================== *)

Module CreateReportScreenCapture.
Import Supabase Device CreateReportScreen.

Definition setReport (f : Report -> Report) : Task (World State) unit :=
  setState (fun s => mkState (f (report s)) (loading s) (error s)
                       (showSuccess s)).
Definition setError (v : option string) : Task (World State) unit :=
  setState (fun s => mkState (report s) (loading s) v (showSuccess s)).
Definition setShowSuccess (v : bool) : Task (World State) unit :=
  setState (fun s => mkState (report s) (loading s) (error s) v).

(** [CATEGORIES[0].value] *)
Definition defaultCategory : string := "pollution".

Definition emptyReport : Report := mkReport None None None defaultCategory "".

(** The listener of the navigation's [focus] event. *)
Definition onFocus : Task (World State) unit :=
  setReport (fun _ => emptyReport) ;;
  setError None ;;
  setShowSuccess false ;;
  setLoading false.

(** The message shown for a geolocation error code. *)
Definition locationErrorText (code : Z) : string :=
  if (code =? 1)%Z then
    "Location permission was denied. Please enable it in your device settings."
  else if (code =? 2)%Z then
    "Location information is unavailable. Please check your device's location services."
  else if (code =? 3)%Z then
    "Location request timed out. Please try again."
  else "Failed to get current location. Please try again.".

Definition getCurrentLocation : Task (Handset State) unit :=
  Geolocation_getCurrentPosition
    (fun position =>
       onApp (setReport (fun prev =>
                mkReport (image prev) (imageBase64 prev)
                  (Some (mkCoordinates (latitude position) (longitude position)))
                  (category prev) (description prev))))
    (fun error => onApp (setError (Some (locationErrorText (geo_code error)))))
    (mkGeoOptions true (Some 15000%Z) (Some 10000%Z)).

Definition requestLocationPermission : Task (Handset State) unit :=
  platform <- Platform_OS ;;
  match platform with
  | IOS => getCurrentLocation
  | Android =>
      tryCatch
        (granted <- PermissionsAndroid_request ACCESS_FINE_LOCATION ;;
         match granted with
         | GRANTED => getCurrentLocation
         | DENIED =>
             onApp (setError (Some
               "Location permission is required to submit reports. Please enable it in your device settings."))
         | NEVER_ASK_AGAIN =>
             onApp (setError (Some
               "Location permission is required. Please enable it in your device settings."))
         end)
        (fun err =>
           onApp (setError (Some
             "Failed to get location permission. Please try again.")))
  end.

Definition requestCameraPermission : Task (Handset State) bool :=
  platform <- Platform_OS ;;
  match platform with
  | IOS => ret true
  | Android =>
      tryCatch
        (granted <- PermissionsAndroid_request CAMERA ;;
         ret (isGranted granted))
        (fun err => ret false)
  end.

Inductive PickerType : Type := camera | gallery.

Definition handleImagePicker (type : PickerType) : Task (Handset State) unit :=
  tryCatch
    ((* Request camera permission if needed *)
     match type with
     | camera =>
         hasPermission <- requestCameraPermission ;;
         if negb hasPermission
         then throw (mkError "Camera permission denied")
         else ret tt
     | gallery => ret tt
     end ;;
     let options := mkPickerOptions 50 true (Some false) in
     result <- match type with
               | camera => launchCamera options
               | gallery => launchImageLibrary options
               end ;;
     if didCancel result then ret tt
     else if Js.truthyOpt (errorCode result) then
       throw (mkError ("Image picker error: "
                       ++ Js.orElse (errorMessage result)
                                    (showOpt (errorCode result))))
     else
       match firstAsset result with
       | Some asset =>
           if Js.truthyOpt (asset_uri asset)
              && Js.truthyOpt (asset_base64 asset)
           then
             (* Store both URI and base64 data *)
             onApp (setReport (fun prev =>
                      mkReport (asset_uri asset) (asset_base64 asset)
                               (location prev) (category prev)
                               (description prev)))
           else throw (mkError "Failed to get image data")
       | None => throw (mkError "Failed to get image data")
       end)
    (fun error =>
       onApp (setError (Some ("Failed to capture/select image: "
                              ++ message error)))).

End CreateReportScreenCapture.

(* ====================================================================== *)
(** * The tab variant: position and image picker *)
(* ====================================================================== *)

Module TabsReportScreenCapture.
Import Supabase Device TabsReportScreen.

Definition getCurrentLocation : Task (Handset State) unit :=
  Geolocation_getCurrentPosition
    (fun position =>
       onApp (st <- getState ;;
              let prev := report st in
              setReport (mkReport (image prev)
                           (Some (mkCoordinates (latitude position)
                                                (longitude position)))
                           (category prev) (description prev))))
    (fun error => ret tt)
    (mkGeoOptions true (Some 20000%Z) (Some 1000%Z)).

Definition requestLocationPermission : Task (Handset State) unit :=
  platform <- Platform_OS ;;
  match platform with
  | IOS => getCurrentLocation
  | Android =>
      tryCatch
        (granted <- PermissionsAndroid_request ACCESS_FINE_LOCATION ;;
         if isGranted granted then getCurrentLocation else ret tt)
        (fun err => ret tt)
  end.

Inductive PickerType : Type := camera | gallery.

Definition handleImagePicker (type : PickerType) : Task (Handset State) unit :=
  let options := mkPickerOptions 80 true None in
  tryCatch
    (result <- match type with
               | camera => launchCamera options
               | gallery => launchImageLibrary options
               end ;;
     match firstAsset result with
     | Some asset =>
         match asset_uri asset with
         | Some uri =>
             if Js.truthy uri then
               onApp (st <- getState ;;
                      let prev := report st in
                      setReport (mkReport (Some uri) (location prev)
                                          (category prev) (description prev)))
             else ret tt
         | None => ret tt
         end
     | None => ret tt
     end)
    (fun err => onApp (setError (Some "Failed to capture/select image"))).

End TabsReportScreenCapture.

(* ====================================================================== *)
(** * MyReportsScreen (src/screens/ReportScreen.tsx, third module) *)
(* ====================================================================== *)

Module MyReportsScreen.
Import Supabase.

(** [from('reports').select('*').eq('user_id', uid)
      .order('created_at', { ascending: false })], logged as the REST
    request it is. *)
Definition reports_of_user (uid : string) (l : list ReportRow) : list ReportRow :=
  order_desc rep_created_at (filter (fun r => rep_user_id r =? uid) l).

Definition reports_select_by_user (uid : string)
  : Backend -> Reply (list ReportRow) * Backend :=
  request (HttpFetch ("/rest/v1/reports?select=*&user_id=eq." ++ uid
                      ++ "&order=created_at.desc"))
    (fun b => (inl (reports_of_user uid (reports b)), b)).

Record Report := mkReport {
  row : ReportRow;
  username : string                    (* user.username *)
}.

Record State := mkState {
  reports : list Report;
  loading : bool;
  error : option string;
  refreshing : bool
}.

Definition setReports (v : list Report) : Task (World State) unit :=
  setState (fun s => mkState v (loading s) (error s) (refreshing s)).
Definition setLoading (v : bool) : Task (World State) unit :=
  setState (fun s => mkState (reports s) v (error s) (refreshing s)).
Definition setError (v : option string) : Task (World State) unit :=
  setState (fun s => mkState (reports s) (loading s) v (refreshing s)).
Definition setRefreshing (v : bool) : Task (World State) unit :=
  setState (fun s => mkState (reports s) (loading s) (error s) v).

Definition fetchReports : Task (World State) unit :=
  tryFinally
    (tryCatch
       (setLoading true ;;
        setError None ;;
        (* Get current user *)
        u <- await auth_getUser ;;
        match userOf u with
        | None => setError (Some "Please sign in to view your reports")
        | Some user =>
            r <- await (reports_select_by_user (user_id user)) ;;
            match res_error r with
            | Some fetchError => throw fetchError
            | None =>
                (* Transform reports with user data *)
                let reportsWithUsers :=
                  map (fun report =>
                         mkReport report
                           (Js.orElse (user_username user) "Anonymous"))
                      (match res_data r with Some rows => rows | None => [] end) in
                setReports reportsWithUsers
            end
        end)
       (fun err => setError (Some "Failed to load reports")))
    (setLoading false ;; setRefreshing false).

Definition onRefresh : Task (World State) unit :=
  setRefreshing true ;;
  fetchReports.

End MyReportsScreen.

(* ====================================================================== *)
(** * HomeScreen: pull to refresh *)
(* ====================================================================== *)

Module HomeScreenRefresh.
Import HomeScreen.

Definition onRefresh : Task (World State) unit :=
  setRefreshing true ;;
  fetchReports.

Definition setSelectedCategory (v : option string) : Task (World State) unit :=
  setState (fun s => mkState (reports s) (filteredReports s) (loading s)
                       (error s) (refreshing s) (searchQuery s) v
                       (menuVisible s)).

End HomeScreenRefresh.

(* ====================================================================== *)
(** * ReportDetailScreen: what the map area shows *)
(* ====================================================================== *)

Module ReportDetailMap.
Import Supabase ReportDetailScreen.

(** The four views [renderMap] can return. *)
Inductive MapArea : Type :=
| LocationUnavailable              (* 'Location data unavailable' *)
| InvalidCoordinates               (* 'Invalid location coordinates' *)
| LocationText (lat lng : Z)       (* 'Location: <lat>, <lng>' *)
| ErrorLoadingMap.                 (* 'Error loading map' *)

(** [report.location.lat] and [.lng]; a location stored under other keys
    has neither. *)
Definition latOf (l : LocationJson) : option Z :=
  match l with JLatLng p => Some (lat p) | JCoordinates _ => None end.
Definition lngOf (l : LocationJson) : option Z :=
  match l with JLatLng p => Some (lng p) | JCoordinates _ => None end.

(** Truthiness of a possibly-undefined number. *)
Definition truthyNumber (n : option Z) : bool :=
  match n with Some z => negb (z =? 0)%Z | None => false end.

Definition renderMap (st : State) : MapArea :=
  match report st with
  | None => LocationUnavailable
  | Some r =>
      if mapError st then LocationUnavailable
      else if negb (truthyNumber (latOf (location r)))
              || negb (truthyNumber (lngOf (location r)))
      then InvalidCoordinates
      else
        match latOf (location r), lngOf (location r) with
        | Some la, Some lo => LocationText la lo
        | _, _ => ErrorLoadingMap     (* [toFixed] of undefined throws *)
        end
  end.

End ReportDetailMap.

(* ====================================================================== *)
(** * ProfileScreen (screens/ProfileScreen.tsx) *)
(* ====================================================================== *)

Module ProfileScreen.
Import Supabase.

(** [select('*', { count: 'exact', head: true }).eq('user_id', uid)] on
    the two tables, logged as the REST requests they are. *)
Definition reports_count (uid : string) : Backend -> Reply Z * Backend :=
  request (HttpFetch ("/rest/v1/reports?select=*&user_id=eq." ++ uid))
    (fun b => (inl (Z.of_nat (length (filter (fun r => rep_user_id r =? uid)
                                             (reports b)))), b)).

Definition comments_count (uid : string) : Backend -> Reply Z * Backend :=
  request (HttpFetch ("/rest/v1/comments?select=*&user_id=eq." ++ uid))
    (fun b => (inl (Z.of_nat (length (filter (fun c => com_user_id c =? uid)
                                             (comments b)))), b)).

Record Stats := mkStats { reports : Z; comments : Z; points : Z }.

Record State := mkState { stats : Stats }.

Definition initialState : State := mkState (mkStats 0 0 0).

Definition setStats (v : Stats) : Task (World State) unit :=
  setState (fun _ => mkState v).

(** [count || 0] *)
Definition orZero (count : option Z) : Z :=
  match count with Some n => n | None => 0%Z end.

(** [user] is the user of the auth context, read when the screen renders. *)
Definition fetchUserStats (user : option User) : Task (World State) unit :=
  match user with
  | None => ret tt
  | Some user =>
      tryCatch
        ((* Fetch reports count *)
         r <- await (reports_count (user_id user)) ;;
         let reportsCount := res_data r in
         (* Fetch comments count *)
         c <- await (comments_count (user_id user)) ;;
         let commentsCount := res_data c in
         setStats (mkStats (orZero reportsCount) (orZero commentsCount)
                     (orZero reportsCount * 10 + orZero commentsCount * 2)%Z))
        (fun error => ret tt)
  end.

End ProfileScreen.

(* ====================================================================== *)
(** * Observations on the handset and on whole runs *)
(* ====================================================================== *)

Module ObserveDevice.
Import Supabase Device.

(** What a run has asked of the handset, newest first. *)
Definition asked {St} (before after : Handset St) : list Use :=
  firstn (length (used (phone after)) - length (used (phone before)))
         (used (phone after)).

Definition isCameraLaunch (u : Use) : bool :=
  match u with LaunchedCamera _ => true | _ => false end.
Definition isPickerLaunch (u : Use) : bool :=
  match u with
  | LaunchedCamera _ | LaunchedImageLibrary _ => true
  | _ => false
  end.
Definition isPositionRequest (u : Use) : bool :=
  match u with AskedPosition _ => true | _ => false end.

(** The answer of the picker that [handleImagePicker type] launches. *)
Definition picker_answer (type : CreateReportScreenCapture.PickerType)
    (p : Phone) : ImagePickerResponse + Error :=
  match type with
  | CreateReportScreenCapture.camera => camera_answer p
  | CreateReportScreenCapture.gallery => library_answer p
  end.

(** The photo, the position and the category [ReportScreen.handleSubmit]
    asks for are all there. *)
Definition passesGuard (st : ReportScreen.State) : bool :=
  Js.truthyOpt (ReportScreen.image st)
  && ReportScreen.isSome (ReportScreen.location st)
  && Js.truthy (ReportScreen.category st).

(** The position as [{ lat, lng }], [{ lat: 0, lng: 0 }] without one. *)
Definition zeroOr (l : option Coordinates) : LatLng :=
  match l with
  | Some c => mkLatLng (latitude c) (longitude c)
  | None => mkLatLng 0 0
  end.

Fixpoint noSlash (s : string) : bool :=
  match s with
  | EmptyString => true
  | String c s' => negb (Ascii.eqb c "/"%char) && noSlash s'
  end.

(** The feed's category filter in words: nothing selected, or the category
    of the report is, letter case aside, the id listed under the selected
    label. *)
Definition CategoryMatches (selected : option string) (r : HomeScreen.Report)
  : Prop :=
  match selected with
  | None => True
  | Some l =>
      l = "" \/
      exists cat, In cat HomeScreen.CATEGORIES /\ HomeScreen.label cat = l
                  /\ Js.toLowerCase (HomeScreen.category r) = HomeScreen.id cat
  end.

(** The error of the newest request of a run, if that request failed. *)
Definition lastFailure (l : list LogEntry) : option Error :=
  match l with
  | e :: _ =>
      match entry_outcome e with
      | Failed err | Threw err => Some err
      | Fulfilled => None
      end
  | [] => None
  end.

(** The rows of the two tables that belong to [u]. *)
Definition ownReports (u : User) (b : Backend) : Z :=
  Z.of_nat (length (filter (fun r => rep_user_id r =? user_id u) (reports b))).
Definition ownComments (u : User) (b : Backend) : Z :=
  Z.of_nat (length (filter (fun c => com_user_id c =? user_id u) (comments b))).

End ObserveDevice.

(** Concrete handsets for the examples. *)
Module SampleDevices.
Import Supabase Device Samples.

Definition snapshot : Asset := mkAsset (Some photo_uri) (Some photo).
Definition picked : ImagePickerResponse :=
  mkPicked false None None (Some [snapshot]).
Definition cancelled : ImagePickerResponse := mkPicked true None None None.

Definition riverbank : Coordinates := mkCoordinates 48858370 2294481.

Definition allow : Permission -> PermissionStatus + Error :=
  fun _ => inl GRANTED.

(** An Android phone that grants every permission, returns [r] from the
    camera and the library, and has a fix. *)
Definition android (r : ImagePickerResponse) : Phone :=
  mkPhone Android allow (inl r) (inl r) (Fix riverbank) [].

Definition blank : ReportScreen.State :=
  ReportScreen.mkState None None "" "" false None.

Definition create_blank : CreateReportScreen.State :=
  CreateReportScreen.mkState CreateReportScreenCapture.emptyReport
    false None false.

Definition my_reports_initial : MyReportsScreen.State :=
  MyReportsScreen.mkState [] false None false.

End SampleDevices.

(* ====================================================================== *)
(** * Facts about strings *)
(* ====================================================================== *)

Module JsFacts.
Import Js Observe.

Lemma numberToString_inj (a b : Z) :
  numberToString a = numberToString b -> a = b.
Proof.
  unfold numberToString. intros H.
  apply DecimalZ.to_int_inj.
  assert (E : Some (Z.to_int a) = Some (Z.to_int b)).
  { rewrite <- (NilEmpty.isi (Z.to_int a)), <- (NilEmpty.isi (Z.to_int b)).
    now rewrite H. }
  now inversion E.
Qed.

Lemma append_inv_head (p a b : string) : p ++ a = p ++ b -> a = b.
Proof.
  induction p as [|c p IH]; simpl; intros H; [exact H|].
  inversion H. auto.
Qed.

Lemma append_assoc (a b c : string) : (a ++ b) ++ c = a ++ (b ++ c).
Proof. induction a as [|x a IH]; simpl; [reflexivity | now rewrite IH]. Qed.

Lemma append_nil_r (a : string) : a ++ "" = a.
Proof. induction a as [|x a IH]; simpl; [reflexivity | now rewrite IH]. Qed.

Lemma length_append (a b : string) :
  String.length (a ++ b) = String.length a + String.length b.
Proof. induction a as [|x a IH]; simpl; [reflexivity | now rewrite IH]. Qed.

Lemma append_inv_tail (a b s : string) : a ++ s = b ++ s -> a = b.
Proof.
  revert b. induction a as [|x a IH]; intros [|y b] H; simpl in H.
  - reflexivity.
  - exfalso. apply (f_equal String.length) in H. simpl in H.
    rewrite length_append in H. lia.
  - exfalso. apply (f_equal String.length) in H. simpl in H.
    rewrite length_append in H. lia.
  - inversion H. f_equal. auto.
Qed.

Lemma startsWith_spec (s t : string) :
  startsWith s t = true <-> exists suf, s = t ++ suf.
Proof.
  revert s. induction t as [|b t IH]; intros s; simpl.
  - split; [intros _; now exists s | reflexivity].
  - destruct s as [|a s]; simpl.
    + split; [discriminate | intros [suf H]; discriminate].
    + rewrite andb_true_iff, IH, Ascii.eqb_eq. split.
      * intros [-> [suf ->]]. now exists suf.
      * intros [suf H]. inversion H. split; [reflexivity | now exists suf].
Qed.

(** [includes] decides the substring relation. *)
Lemma includes_spec (s t : string) :
  includes s t = true <-> exists pre suf, s = pre ++ t ++ suf.
Proof.
  induction s as [|a s IH]; simpl.
  - rewrite orb_false_r, startsWith_spec. split.
    + intros [suf H]. now exists "", suf.
    + intros [pre [suf H]]. destruct pre; simpl in H; [now exists suf | discriminate].
  - rewrite orb_true_iff, IH. split.
    + intros [H | [pre [suf ->]]].
      * apply startsWith_spec in H. destruct H as [suf H]. now exists "", suf.
      * now exists (String a pre), suf.
    + intros [pre [suf H]]. destruct pre as [|c pre]; simpl in H.
      * left. apply startsWith_spec. now exists suf.
      * right. inversion H. now exists pre, suf.
Qed.

Lemma includes_empty (s : string) : includes s "" = true.
Proof. destruct s; reflexivity. Qed.

Lemma trimStart_whitespaceOnly (s : string) :
  whitespaceOnly s = true -> trimStart s = "".
Proof.
  induction s as [|c s IH]; simpl; [reflexivity|].
  intros H. apply andb_true_iff in H. destruct H as [Hc Hs].
  rewrite Hc. auto.
Qed.

Lemma trim_whitespaceOnly (s : string) :
  whitespaceOnly s = true -> trim s = "".
Proof. intros H. unfold trim. now rewrite trimStart_whitespaceOnly. Qed.

Lemma trimEnd_empty_inv (s : string) :
  trimEnd s = "" -> whitespaceOnly s = true.
Proof.
  induction s as [|c s IH]; simpl; [reflexivity|].
  destruct (trimEnd s) eqn:E; [|discriminate].
  destruct (isWhiteSpace c); [intros _ | discriminate].
  now rewrite IH.
Qed.

Lemma trimStart_whitespace_suffix (s : string) :
  whitespaceOnly (trimStart s) = true -> whitespaceOnly s = true.
Proof.
  induction s as [|c s IH]; simpl; [reflexivity|].
  destruct (isWhiteSpace c) eqn:E; simpl; [auto|].
  rewrite E. discriminate.
Qed.

(** [!text.trim()] holds exactly for the empty and the blank texts. *)
Lemma trim_falsy_iff (s : string) :
  truthy (trim s) = false <-> whitespaceOnly s = true.
Proof.
  unfold truthy. rewrite negb_false_iff, String.eqb_eq. split.
  - intros H. apply trimStart_whitespace_suffix. now apply trimEnd_empty_inv.
  - apply trim_whitespaceOnly.
Qed.

End JsFacts.

(* ====================================================================== *)
(** * Facts about lists *)
(* ====================================================================== *)

Module ListFacts.

Lemma filter_all_on {A} (f : A -> bool) (l : list A) :
  (forall x, In x l -> f x = true) -> filter f l = l.
Proof.
  induction l as [|x l IH]; simpl; intros H; [reflexivity|].
  rewrite (H x (or_introl eq_refl)), IH; [reflexivity|].
  intros y Hy. apply H. now right.
Qed.

Lemma filter_all {A} (f : A -> bool) (l : list A) :
  (forall x, f x = true) -> filter f l = l.
Proof. intros H. apply filter_all_on. intros x _. apply H. Qed.

Lemma filter_sorted {A} (R : A -> A -> Prop) (f : A -> bool) (l : list A) :
  StronglySorted R l -> StronglySorted R (filter f l).
Proof.
  induction 1 as [|x l Hs IH Hall]; simpl; [constructor|].
  destruct (f x); [|exact IH].
  constructor; [exact IH|].
  rewrite Forall_forall in *. intros y Hy. apply Hall.
  apply filter_In in Hy. tauto.
Qed.

End ListFacts.

(* ====================================================================== *)
(** * Facts about the data service *)
(* ====================================================================== *)

Module SupabaseFacts.
Import Supabase Observe.

Section Ordering.
Variable A : Type.
Variable key : A -> Z.

Lemma insert_asc_perm (x : A) (l : list A) :
  Permutation (insert_asc key x l) (x :: l).
Proof.
  induction l as [|y l IH]; simpl; [apply Permutation_refl|].
  destruct (key x <=? key y)%Z; [apply Permutation_refl|].
  eapply Permutation_trans; [apply perm_skip, IH | apply perm_swap].
Qed.

Lemma order_asc_perm (l : list A) : Permutation (order_asc key l) l.
Proof.
  induction l as [|x l IH]; simpl; [constructor|].
  eapply Permutation_trans; [apply insert_asc_perm | now apply perm_skip].
Qed.

Lemma insert_asc_sorted (x : A) (l : list A) :
  StronglySorted (ascending key) l -> StronglySorted (ascending key) (insert_asc key x l).
Proof.
  induction 1 as [|y l Hs IH Hall]; simpl.
  - repeat constructor.
  - destruct (Z.leb_spec (key x) (key y)) as [Hle | Hgt].
    + constructor; [now constructor|].
      constructor; [exact Hle|].
      eapply Forall_impl; [|exact Hall]. unfold ascending. intros; lia.
    + constructor; [exact IH|].
      eapply Permutation_Forall; [apply Permutation_sym, insert_asc_perm|].
      constructor; [unfold ascending; lia | exact Hall].
Qed.

Lemma order_asc_sorted (l : list A) : StronglySorted (ascending key) (order_asc key l).
Proof.
  induction l as [|x l IH]; simpl; [constructor | now apply insert_asc_sorted].
Qed.

Lemma order_asc_In (l : list A) (x : A) : In x (order_asc key l) <-> In x l.
Proof.
  split; apply Permutation_in;
    [apply order_asc_perm | apply Permutation_sym, order_asc_perm].
Qed.

End Ordering.

Lemma order_desc_sorted {A} (key : A -> Z) (l : list A) :
  StronglySorted (descending key) (order_desc key l).
Proof.
  unfold order_desc.
  eapply StronglySorted_ind with (P := StronglySorted (descending key));
    [constructor | | apply (order_asc_sorted (fun x => (- key x)%Z) l)].
  intros a l' _ IH Hall. constructor; [exact IH|].
  eapply Forall_impl; [|exact Hall]. unfold ascending, descending. intros; lia.
Qed.

Lemma order_desc_In {A} (key : A -> Z) (l : list A) (x : A) :
  In x (order_desc key l) <-> In x l.
Proof. apply order_asc_In. Qed.


Lemma comments_of_sorted (id : string) (l : list CommentRow) :
  StronglySorted (ascending com_created_at) (comments_of id l).
Proof. apply order_asc_sorted. Qed.

Lemma issued_app (before after : Backend) (new : list LogEntry) :
  calls after = (new ++ calls before)%list -> issued before after = new.
Proof.
  unfold issued. intros ->. rewrite length_app.
  replace (length new + length (calls before) - length (calls before))
    with (length new + 0) by lia.
  rewrite firstn_app_2. simpl. apply app_nil_r.
Qed.

End SupabaseFacts.

(* ====================================================================== *)
(** * Running a handler symbolically *)
(* ====================================================================== *)

(** Case analysis on the innermost scrutinee of the goal, repeated until
    the run is a value. *)
Ltac run_handler :=
  repeat match goal with
  | |- context [match ?x with _ => _ end] =>
      lazymatch x with
      | context [match _ with _ => _ end] => fail
      | _ => destruct x eqn:?; simpl in *; try discriminate
      end
  end.

(** Reads the requests a finished run has issued off its log. *)
Ltac issued_norm :=
  match goal with
  | |- context [Observe.issued ?b ?b'] =>
      first [ rewrite (@SupabaseFacts.issued_app b b' []) by reflexivity
            | erewrite (@SupabaseFacts.issued_app b b' [_]) by reflexivity
            | erewrite (@SupabaseFacts.issued_app b b' [_; _]) by reflexivity
            | erewrite (@SupabaseFacts.issued_app b b' [_; _; _]) by reflexivity
            | erewrite (@SupabaseFacts.issued_app b b' [_; _; _; _]) by reflexivity ]
  end.

Ltac unfold_task :=
  unfold exec, completion, bind, ret, tryFinally, tryCatch, await, awaitValue,
    perform, getState, gets, setState, modify, alert, navigate, goBack, throw,
    Date_now.

Ltac unfold_service :=
  unfold Supabase.auth_getSession, Supabase.auth_getUser,
    Supabase.storage_upload, Supabase.storage_createSignedUrl,
    Supabase.reports_insert, Supabase.reports_select_all,
    Supabase.reports_select_single, Supabase.comments_select,
    Supabase.comments_insert, Supabase.http_fetch_blob, Supabase.request.

(* ====================================================================== *)
(** * ReportScreen.handleSubmit *)
(* ====================================================================== *)

Module ReportScreenProofs.
Import Supabase Observe SupabaseFacts ReportScreen.

Ltac run_submit :=
  unfold handleSubmit, setLoading; unfold_task; unfold_service; simpl;
  run_handler.

Lemma imagePath_inj (t1 t2 : Z) : imagePath t1 = imagePath t2 -> t1 = t2.
Proof.
  unfold imagePath. intros H.
  apply JsFacts.append_inv_head in H.
  apply JsFacts.append_inv_tail in H.
  now apply JsFacts.numberToString_inj.
Qed.

(** An insert answered with an error ends in the save-report alert, with
    the uploaded object left in the bucket. *)
Lemma insert_error_run (w : World State) :
  let w' := exec handleSubmit w in
  existsb (fun e => isReportsInsert e && errored e)
          (issued (backend w) (backend w')) = true ->
  (exists m, ui w' = Alert "Error" (submitErrorText
       ("Failed to process image: Failed to save report: " ++ m)) :: ui w)
  /\ (exists o, objects (backend w') = (objects (backend w) ++ [o])%list
        /\ obj_bucket o = "reports" /\ obj_path o = imagePath (now w))
  /\ existsb (fun e => isUpload e && fulfilled e)
             (issued (backend w) (backend w')) = true
  /\ reports (backend w') = reports (backend w).
Proof.
  destruct w as [st b u t]. run_submit.
  all: issued_norm; simpl; intros H; try discriminate H.
  all: repeat split; eauto.
Qed.

(** An upload answered with an error ends in the upload-image alert. *)
Lemma upload_error_run (w : World State) :
  let w' := exec handleSubmit w in
  existsb (fun e => isUpload e && errored e)
          (issued (backend w) (backend w')) = true ->
  exists m, ui w' = Alert "Error" (submitErrorText
       ("Failed to process image: Failed to upload image: " ++ m)) :: ui w.
Proof.
  destruct w as [st b u t]. run_submit.
  all: issued_norm; simpl; intros H; try discriminate H.
  all: eauto.
Qed.

(** An insert whose promise rejects is caught by the inner handler: the
    alert carries the message of the rejection, the uploaded object stays
    and no row is written. *)
Lemma insert_rejection_run (w : World State) :
  let w' := exec handleSubmit w in
  existsb (fun e => isReportsInsert e && threw e)
          (issued (backend w) (backend w')) = true ->
  (exists m, ui w' = Alert "Error" (submitErrorText
       ("Failed to process image: " ++ m)) :: ui w)
  /\ (exists o, objects (backend w') = (objects (backend w) ++ [o])%list
        /\ obj_bucket o = "reports" /\ obj_path o = imagePath (now w))
  /\ reports (backend w') = reports (backend w).
Proof.
  destruct w as [st b u t]. run_submit.
  all: issued_norm; simpl; intros H; try discriminate H.
  all: repeat split; eauto.
Qed.

Lemma stage_texts_differ (m1 m2 : string) :
  submitErrorText ("Failed to process image: Failed to save report: " ++ m1) <>
  submitErrorText ("Failed to process image: Failed to upload image: " ++ m2).
Proof. unfold submitErrorText. simpl. intros H. discriminate H. Qed.

(** The session is read on every call, before the upload: without a
    signed-in user nothing is uploaded or inserted, and every record sent
    to [reports] carries the id of the user signed in at that moment. *)
Lemma handleSubmit_revalidates_identity (w : World State) :
  let w' := exec handleSubmit w in
  (identity (backend w) = None ->
     existsb isUpload (issued (backend w) (backend w')) = false
     /\ existsb isReportsInsert (issued (backend w) (backend w')) = false
     /\ objects (backend w') = objects (backend w)
     /\ reports (backend w') = reports (backend w))
  /\ (forall p o, In (mkEntry (ReportsInsert p) o) (issued (backend w) (backend w')) ->
        exists u, identity (backend w) = Some u /\ ins_user_id p = Some (user_id u)).
Proof.
  destruct w as [st b u t]. run_submit.
  all: issued_norm; simpl; split;
    [ intros H; try discriminate H; repeat split; reflexivity
    | intros p o H;
      repeat match goal with
             | H : _ \/ _ |- _ => destruct H as [H | H]
             | H : False |- _ => destruct H
             | H : mkEntry _ _ = mkEntry _ _ |- _ => inversion H; clear H; subst
             end; eauto ].
Qed.

(** Every upload of the screen goes to [imagePath] of the device clock,
    whoever is signed in. *)
Lemma upload_goes_to_imagePath (w : World State) :
  forall bucket path body ct cc up o,
    In (mkEntry (StorageUpload bucket path body ct cc up) o)
       (issued (backend w) (backend (exec handleSubmit w))) ->
    bucket = "reports" /\ path = imagePath (now w).
Proof.
  destruct w as [st b u t]. run_submit.
  all: issued_norm; simpl; intros bucket path body ct cc up o H;
    repeat match goal with
           | H : _ \/ _ |- _ => destruct H as [H | H]
           | H : False |- _ => destruct H
           | H : mkEntry _ _ = mkEntry _ _ |- _ => inversion H; clear H; subst
           end; split; reflexivity.
Qed.

(** C1: whenever the image upload fails (the request is answered with an
    error or its promise rejects), [handleSubmit] stops there: neither the
    URL request nor the insert request is issued, the [reports] table is
    as it was, and so is the bucket. *)
Theorem upload_failure_creates_no_record (w : World State) :
  let w' := exec handleSubmit w in
  existsb (fun e => isUpload e && failed e)
          (issued (backend w) (backend w')) = true ->
  existsb isSignedUrl (issued (backend w) (backend w')) = false
  /\ existsb isReportsInsert (issued (backend w) (backend w')) = false
  /\ reports (backend w') = reports (backend w)
  /\ objects (backend w') = objects (backend w).
Proof.
  destruct w as [st b u t]. run_submit.
  all: issued_norm; simpl; intros H; try discriminate H.
  all: repeat split; reflexivity.
Qed.

Lemma upload_failure_creates_no_record_witness :
  let w := mkWorld Samples.filled
             (Samples.service (Some Samples.alice)
                (Samples.refuse_at 1 "Payload too large"))
             [] Samples.noon in
  let w' := exec handleSubmit w in
  existsb (fun e => isUpload e && failed e)
          (issued (backend w) (backend w')) = true
  /\ existsb isSignedUrl (issued (backend w) (backend w')) = false
  /\ existsb isReportsInsert (issued (backend w) (backend w')) = false
  /\ reports (backend w') = reports (backend w)
  /\ objects (backend w') = objects (backend w).
Proof.
  split; [reflexivity|].
  apply (upload_failure_creates_no_record
           (mkWorld Samples.filled
              (Samples.service (Some Samples.alice)
                 (Samples.refuse_at 1 "Payload too large"))
              [] Samples.noon)).
  reflexivity.
Defined.

(** C2: when the upload went through and the insert is answered with an
    error, the alert names the save-report stage, no alert of a failed
    upload has that text, the uploaded object stays in the bucket, and no
    row is written. *)
Theorem insert_failure_is_surfaced_apart (w1 w2 : World State) :
  let r1 := exec handleSubmit w1 in
  let r2 := exec handleSubmit w2 in
  existsb (fun e => isReportsInsert e && errored e)
          (issued (backend w1) (backend r1)) = true ->
  existsb (fun e => isUpload e && errored e)
          (issued (backend w2) (backend r2)) = true ->
  (exists m, ui r1 = Alert "Error" (submitErrorText
       ("Failed to process image: Failed to save report: " ++ m)) :: ui w1)
  /\ hd_error (ui r1) <> hd_error (ui r2)
  /\ existsb (fun e => isUpload e && fulfilled e)
             (issued (backend w1) (backend r1)) = true
  /\ (exists o, objects (backend r1) = (objects (backend w1) ++ [o])%list
        /\ obj_bucket o = "reports" /\ obj_path o = imagePath (now w1))
  /\ reports (backend r1) = reports (backend w1).
Proof.
  intros r1 r2 Hins Hup.
  destruct (insert_error_run w1 Hins) as [[m1 Hui1] [Hobj [Hupload Hrep]]].
  destruct (upload_error_run w2 Hup) as [m2 Hui2].
  fold r1 in Hui1, Hobj, Hupload, Hrep. fold r2 in Hui2.
  split; [now exists m1|].
  split; [|now repeat split].
  rewrite Hui1, Hui2. cbn [hd_error]. intros E.
  apply (@stage_texts_differ m1 m2). congruence.
Qed.

Lemma insert_failure_is_surfaced_apart_witness :
  let w1 := mkWorld Samples.filled
              (Samples.service (Some Samples.alice)
                 (Samples.refuse_at 3 "connection reset"))
              [] Samples.noon in
  let w2 := mkWorld Samples.filled
              (Samples.service (Some Samples.alice)
                 (Samples.refuse_at 1 "connection reset"))
              [] Samples.noon in
  hd_error (ui (exec handleSubmit w1)) <> hd_error (ui (exec handleSubmit w2))
  /\ map obj_path (objects (backend (exec handleSubmit w1)))
     = ["reports/1700000000000.jpg"]
  /\ reports (backend (exec handleSubmit w1)) = [].
Proof.
  pose proof (insert_failure_is_surfaced_apart
                (mkWorld Samples.filled
                   (Samples.service (Some Samples.alice)
                      (Samples.refuse_at 3 "connection reset"))
                   [] Samples.noon)
                (mkWorld Samples.filled
                   (Samples.service (Some Samples.alice)
                      (Samples.refuse_at 1 "connection reset"))
                   [] Samples.noon)
                eq_refl eq_refl) as [_ [Hdiff [_ [_ Hrep]]]].
  split; [exact Hdiff|]. split; [reflexivity | exact Hrep].
Defined.

(** C3, as the spec states it, fails: with image and category present and
    the location left out, no Report comes out of [handleSubmit]; the user
    is told to provide a location. *)
Lemma submit_without_location_is_rejected :
  let w := mkWorld Samples.without_location
             (Samples.service (Some Samples.alice) Samples.never)
             [] Samples.noon in
  let w' := exec handleSubmit w in
  ~ (exists row, In row (reports (backend w')))
  /\ ui w' = [Alert "Error" "Please provide an image, location, and category"].
Proof.
  split; [intros [row H]; exact H | reflexivity].
Qed.

(** C3, amended: a submission without a location is turned down on entry.
    [handleSubmit] shows the alert asking for image, location and category
    and does nothing else: no request reaches the data service, no object
    is stored, no Report is created. *)
Theorem location_is_required (w : World State) :
  location (screen w) = None ->
  let w' := exec handleSubmit w in
  w' = set_ui (Alert "Error" "Please provide an image, location, and category"
                 :: ui w) w
  /\ issued (backend w) (backend w') = []
  /\ objects (backend w') = objects (backend w)
  /\ reports (backend w') = reports (backend w).
Proof.
  destruct w as [st b u t]. simpl. intros Hloc.
  unfold handleSubmit. unfold_task. simpl. rewrite Hloc. simpl.
  rewrite orb_true_r. simpl.
  repeat split. unfold issued. now rewrite Nat.sub_diag.
Qed.

Lemma location_is_required_witness :
  let w := mkWorld Samples.without_location
             (Samples.service (Some Samples.alice) Samples.never)
             [] Samples.noon in
  location (screen w) = None
  /\ issued (backend w) (backend (exec handleSubmit w)) = []
  /\ reports (backend (exec handleSubmit w)) = reports (backend w).
Proof.
  split; [reflexivity|].
  destruct (location_is_required
              (mkWorld Samples.without_location
                 (Samples.service (Some Samples.alice) Samples.never)
                 [] Samples.noon) eq_refl) as [_ [Hi [_ Hr]]].
  split; [exact Hi | exact Hr].
Defined.

(** C9 at a concrete submission: alice's photo goes to
    [reports/1700000000000.jpg], a path without her id, where the sibling
    screen writes [alice/1700000000000.jpg]; bob, submitting within the
    same millisecond, is sent to the same path and his upload is refused. *)
Theorem upload_path_omits_identity :
  let wa := mkWorld Samples.filled
              (Samples.service (Some Samples.alice) Samples.never)
              [] Samples.noon in
  let wa' := exec handleSubmit wa in
  let wb := mkWorld Samples.filled
              (set_identity (Some Samples.bob) (backend wa'))
              [] Samples.noon in
  let wb' := exec handleSubmit wb in
  map obj_path (objects (backend wa')) = ["reports/1700000000000.jpg"]
  /\ CreateReportScreen.filePath Samples.alice Samples.noon
     = "alice/1700000000000.jpg"
  /\ ui wb' = [Alert "Error" (submitErrorText
       "Failed to process image: Failed to upload image: The resource already exists")]
  /\ reports (backend wb') = reports (backend wa').
Proof. repeat split. Qed.

End ReportScreenProofs.

(* ====================================================================== *)
(** * CreateReportScreen.handleSubmit *)
(* ====================================================================== *)

Module CreateReportScreenProofs.
Import Supabase Observe SupabaseFacts CreateReportScreen.

Ltac run_submit :=
  unfold handleSubmit, setLoading; unfold_task; unfold_service; simpl;
  run_handler.

(** The second screen reads the user on every call as well, and sends the
    record under that user's id. *)
Lemma create_handleSubmit_revalidates_identity (w : World State) :
  let w' := exec handleSubmit w in
  (identity (backend w) = None ->
     existsb isUpload (issued (backend w) (backend w')) = false
     /\ existsb isReportsInsert (issued (backend w) (backend w')) = false
     /\ objects (backend w') = objects (backend w)
     /\ reports (backend w') = reports (backend w))
  /\ (forall p o, In (mkEntry (ReportsInsert p) o) (issued (backend w) (backend w')) ->
        exists u, identity (backend w) = Some u /\ ins_user_id p = Some (user_id u)).
Proof.
  destruct w as [st b u t]. run_submit.
  all: issued_norm; simpl; split;
    [ intros H; try discriminate H; repeat split; reflexivity
    | intros p o H;
      repeat match goal with
             | H : _ \/ _ |- _ => destruct H as [H | H]
             | H : False |- _ => destruct H
             | H : mkEntry _ _ = mkEntry _ _ |- _ => inversion H; clear H; subst
             end; eauto ].
Qed.

(** Its object path starts with the id of the user. *)
Lemma filePath_names_user (u : User) (t : Z) :
  Js.startsWith (filePath u t) (user_id u ++ "/") = true.
Proof.
  apply JsFacts.startsWith_spec. unfold filePath.
  exists (Js.numberToString t ++ ".jpg").
  now rewrite JsFacts.append_assoc.
Qed.

(** Without a location this screen does submit, and writes the zero
    coordinates in its place. *)
Lemma create_submit_without_location_writes_zero :
  let w := mkWorld Samples.create_without_location
             (Samples.service (Some Samples.alice) Samples.never)
             [] Samples.noon in
  let w' := exec handleSubmit w in
  map rep_location (reports (backend w')) = [JLatLng (mkLatLng 0 0)]
  /\ map rep_user_id (reports (backend w')) = ["alice"]
  /\ map obj_path (objects (backend w')) = ["alice/1700000000000.jpg"]
  /\ ui w' = [GoBack; Alert "Success" "Report submitted successfully"].
Proof. repeat split. Qed.

End CreateReportScreenProofs.

(* ====================================================================== *)
(** * TabsReportScreen.handleSubmit *)
(* ====================================================================== *)

Module TabsReportScreenProofs.
Import Supabase Observe SupabaseFacts TabsReportScreen.

Ltac run_submit :=
  unfold handleSubmit, setLoading, setError, setReport;
  unfold_task; unfold_service; simpl; run_handler.

(** The tab variant never asks who is signed in, and what it sends to
    [reports] has no [user_id]. *)
Lemma tab_handleSubmit_never_reads_identity (w : World State) :
  let w' := exec handleSubmit w in
  existsb isAuth (issued (backend w) (backend w')) = false
  /\ (forall p o, In (mkEntry (ReportsInsert p) o) (issued (backend w) (backend w')) ->
        ins_user_id p = None).
Proof.
  destruct w as [st b u t]. run_submit.
  all: issued_norm; simpl; split;
    [ reflexivity
    | intros p o H;
      repeat match goal with
             | H : _ \/ _ |- _ => destruct H as [H | H]
             | H : False |- _ => destruct H
             | H : mkEntry _ _ = mkEntry _ _ |- _ => inversion H; clear H; subst
             end; reflexivity ].
Qed.

(** Against the schema of the migrations it therefore never adds a row. *)
Lemma tab_handleSubmit_never_creates_report (w : World State) :
  reports (backend (exec handleSubmit w)) = reports (backend w).
Proof. destruct w as [st b u t]. run_submit. all: reflexivity. Qed.

(** C7 at two concrete submissions of the tab variant.  Signed out, it
    still fetches the photo and sends the upload, and never looks at the
    session.  Signed in as alice, it uploads and then sends a record
    without [user_id], which the table refuses: the photo is left behind
    and no Report exists. *)
Theorem tab_submit_skips_identity :
  let signed_out := mkWorld Samples.tab_filled
                      (Samples.service None Samples.never) [] Samples.noon in
  let signed_in := mkWorld Samples.tab_filled
                     (Samples.service (Some Samples.alice) Samples.never)
                     [] Samples.noon in
  let upload := StorageUpload "reports" "reports/1700000000000.jpg"
                  (BlobOfUri Samples.photo_uri) "image/jpeg" None false in
  let record := mkReportInsert None (Some "reports/1700000000000.jpg")
                  (Some (JCoordinates (mkCoordinates 48858370 2294481)))
                  "pollution" "Oil on the river bank" in
  map entry_call (calls (backend (exec handleSubmit signed_out)))
    = [upload; HttpFetch Samples.photo_uri]
  /\ map entry_call (calls (backend (exec handleSubmit signed_in)))
    = [ReportsInsert record; upload; HttpFetch Samples.photo_uri]
  /\ map obj_path (objects (backend (exec handleSubmit signed_in)))
    = ["reports/1700000000000.jpg"]
  /\ reports (backend (exec handleSubmit signed_in)) = []
  /\ error (screen (exec handleSubmit signed_in))
    = Some "null value in column user_id of relation reports violates not-null constraint".
Proof. repeat split. Qed.

End TabsReportScreenProofs.

(* ====================================================================== *)
(** * HomeScreen: the feed and its text filter *)
(* ====================================================================== *)

Module HomeScreenProofs.
Import Supabase Observe SupabaseFacts HomeScreen.

(** The predicate of the code decides the relation of the spec. *)
Lemma matchesQuery_spec (text : string) (r : Report) :
  matchesQuery text r = true <-> TextMatches text r.
Proof.
  unfold matchesQuery, TextMatches, ContainsCI.
  rewrite orb_true_iff, JsFacts.includes_spec.
  destruct (description r) as [d|].
  - rewrite JsFacts.includes_spec. split.
    + intros [H | H]; [left; exists d; split; [reflexivity | exact H] | right; exact H].
    + intros [[d' [E H]] | H]; [left; inversion E; subst; exact H | right; exact H].
  - split.
    + intros [H | H]; [discriminate | right; exact H].
    + intros [[d' [E H]] | H]; [discriminate | right; exact H].
Qed.

Lemma matchesQuery_empty (r : Report) : matchesQuery "" r = true.
Proof.
  unfold matchesQuery. simpl. rewrite JsFacts.includes_empty. apply orb_true_r.
Qed.

Lemma reports_withUser_sorted (user : option User) (rows : list ReportRow) :
  StronglySorted (descending rep_created_at) rows ->
  StronglySorted (descending created_at) (map (withUser user) rows).
Proof.
  induction 1 as [|x l Hs IH Hall]; simpl; constructor; [exact IH|].
  rewrite Forall_forall in *. intros y Hy.
  apply in_map_iff in Hy. destruct Hy as [r [<- Hr]].
  exact (Hall r Hr).
Qed.

(** What a served fetch followed by a change of the search text leaves in
    the two lists of the screen. *)
Lemma fetch_then_filter_run (w : World State) (text : string) :
  let n := length (calls (backend w)) in
  faults (backend w) n = Proceed ->
  (forall e, faults (backend w) (S n) <> Crash e) ->
  selectedCategory (screen w) = None ->
  let w' := exec (fetchReports ;; setSearchQuery text ;; filterReports) w in
  exists user,
    reports (screen w')
      = map (withUser user) (order_desc rep_created_at (Supabase.reports (backend w)))
    /\ filteredReports (screen w')
      = filter (matchesQuery text)
          (map (withUser user)
               (order_desc rep_created_at (Supabase.reports (backend w)))).
Proof.
  destruct w as [st b u t]. simpl. intros Hselect Huser Hcat.
  unfold fetchReports, filterReports, setLoading, setError, setReports,
    setFilteredReports, setRefreshing, setSearchQuery.
  unfold_task. unfold_service. simpl. rewrite Hselect. simpl.
  destruct (faults b (S (length (calls b)))) as [| e | e] eqn:E; simpl;
    [ destruct (identity b) as [v|]; simpl; [exists (Some v) | exists None]
    | exists None | exfalso; exact (Huser e eq_refl)].
  all: rewrite Hcat; destruct (Js.truthy text) eqn:Et; simpl;
    split; try reflexivity.
  all: apply negb_false_iff, String.eqb_eq in Et; subst text;
    symmetry; apply ListFacts.filter_all, matchesQuery_empty.
Qed.

(** C8: after the reports were fetched, with a text filter and no category
    selected, the list on display is exactly the fetched reports whose
    description or category contains the text case-insensitively, in the
    order of the fetch, which is newest first by [created_at]. *)
Theorem text_filter_selects_matching_newest_first
    (w : World State) (text : string) :
  let n := length (calls (backend w)) in
  faults (backend w) n = Proceed ->
  (forall e, faults (backend w) (S n) <> Crash e) ->
  selectedCategory (screen w) = None ->
  let w' := exec (fetchReports ;; setSearchQuery text ;; filterReports) w in
  let fetched := reports (screen w') in
  (exists user,
     fetched = map (withUser user)
                   (order_desc rep_created_at (Supabase.reports (backend w))))
  /\ filteredReports (screen w') = filter (matchesQuery text) fetched
  /\ (forall r, In r (filteredReports (screen w')) <->
                In r fetched /\ TextMatches text r)
  /\ StronglySorted (descending created_at) (filteredReports (screen w')).
Proof.
  intros n Hselect Huser Hcat w' fetched.
  destruct (fetch_then_filter_run w text Hselect Huser Hcat)
    as [user [Hfetched Hfiltered]].
  fold w' in Hfetched, Hfiltered. subst fetched.
  rewrite Hfiltered, Hfetched.
  split; [now exists user|]. split; [reflexivity|]. split.
  - intros r. rewrite filter_In, matchesQuery_spec. tauto.
  - apply ListFacts.filter_sorted, reports_withUser_sorted, order_desc_sorted.
Qed.

Lemma text_filter_selects_matching_newest_first_witness :
  let w := mkWorld Samples.home_initial
             (set_reports Samples.feed
                (Samples.service (Some Samples.alice) Samples.never))
             [] Samples.noon in
  let w' := exec (fetchReports ;; setSearchQuery "plastic" ;; filterReports) w in
  map (fun r => rep_id (row r)) (reports (screen w')) = ["r2"; "r3"; "r1"]
  /\ map (fun r => rep_id (row r)) (filteredReports (screen w')) = ["r3"; "r1"]
  /\ StronglySorted (descending created_at) (filteredReports (screen w')).
Proof.
  assert (Hserved : forall e : Error, Samples.never 1 <> Crash e)
    by (intros e H; discriminate H).
  destruct (text_filter_selects_matching_newest_first
              (mkWorld Samples.home_initial
                 (set_reports Samples.feed
                    (Samples.service (Some Samples.alice) Samples.never))
                 [] Samples.noon)
              "plastic" eq_refl Hserved eq_refl) as [_ [_ [_ Hsorted]]].
  split; [reflexivity|]. split; [reflexivity | exact Hsorted].
Defined.

End HomeScreenProofs.

(* ====================================================================== *)
(** * ReportDetailScreen: comments, their subscription, and new comments *)
(* ====================================================================== *)

Module ReportDetailScreenProofs.
Import Supabase Observe SupabaseFacts ReportDetailScreen.

Ltac unfold_detail :=
  unfold handleAddComment, onPostgresChanges, visit, enter, mountEffect,
    unmountEffect, runCleanup, subscribeToComments, fetchReport, fetchComments,
    setReport, setComments, setNewComment, setLoading, setError,
    channel_subscribe, channel_unsubscribe;
  unfold_task; unfold_service; simpl.

Lemma comments_withUser_sorted (user : option User) (rows : list CommentRow) :
  StronglySorted (ascending com_created_at) rows ->
  StronglySorted (ascending created_at) (map (withUser user) rows).
Proof.
  induction 1 as [|x l Hs IH Hall]; simpl; constructor; [exact IH|].
  rewrite Forall_forall in *. intros y Hy.
  apply in_map_iff in Hy. destruct Hy as [r [<- Hr]].
  exact (Hall r Hr).
Qed.

(** A served fetch replaces the list by the rows of the report, whatever
    the list held before. *)
Lemma fetchComments_run (id : string) (w : World State) :
  let n := length (calls (backend w)) in
  faults (backend w) n = Proceed ->
  (forall e, faults (backend w) (S n) <> Crash e) ->
  exists user,
    comments (screen (exec (fetchComments id) w))
      = map (withUser user) (comments_of id (Supabase.comments (backend w)))
    /\ map entry_call (issued (backend w) (backend (exec (fetchComments id) w)))
      = [AuthGetUser; CommentsSelect id].
Proof.
  destruct w as [st b u t]. simpl. intros Hselect Huser.
  unfold_detail. rewrite Hselect. simpl.
  destruct (faults b (S (length (calls b)))) as [| e | e] eqn:E; simpl.
  - destruct (identity b) as [v|]; simpl;
      [exists (Some v) | exists None];
      (split; [reflexivity|]; issued_norm; reflexivity).
  - exists None. split; [reflexivity|]. issued_norm. reflexivity.
  - exfalso. exact (Huser e eq_refl).
Qed.

(** A fetch the service turns down leaves the list as it was. *)
Lemma fetchComments_refused (id : string) (w : World State) (e : Error) :
  faults (backend w) (length (calls (backend w))) = Refuse e ->
  comments (screen (exec (fetchComments id) w)) = comments (screen w).
Proof.
  destruct w as [st b u t]. simpl. intros H.
  unfold_detail. now rewrite H.
Qed.

(** C4: for every change notification, whatever its kind and payload, the
    listener queries the comments of the report again and, the query being
    served, replaces the local list by the outcome: the list then equals
    what a fresh view would fetch, that is the rows of the report ordered
    by [created_at] ascending. *)
Theorem change_event_refetches_whole_list
    (id : string) (payload : ChangePayload) (w : World State) :
  let n := length (calls (backend w)) in
  faults (backend w) n = Proceed ->
  (forall e, faults (backend w) (S n) <> Crash e) ->
  let w' := exec (onPostgresChanges id payload) w in
  let fresh := exec (fetchComments id) (set_screen initialState w) in
  comments (screen w') = comments (screen fresh)
  /\ (exists user,
        comments (screen w')
          = map (withUser user) (comments_of id (Supabase.comments (backend w))))
  /\ StronglySorted (ascending created_at) (comments (screen w'))
  /\ map entry_call (issued (backend w) (backend w'))
     = [AuthGetUser; CommentsSelect id].
Proof.
  intros n Hselect Huser w' fresh.
  destruct (fetchComments_run id w Hselect Huser) as [user [Hlist Hsent]].
  change (exec (fetchComments id) w) with w' in Hlist, Hsent.
  split; [|split; [now exists user|split; [|exact Hsent]]].
  - subst w' fresh n. destruct w as [st b u t]. simpl in *.
    unfold_detail. rewrite Hselect. simpl.
    destruct (faults b (S (length (calls b)))) as [| e | e]; simpl;
      try reflexivity.
    + destruct (identity b); reflexivity.
    + exfalso. exact (Huser e eq_refl).
  - rewrite Hlist. apply comments_withUser_sorted, comments_of_sorted.
Qed.

Lemma change_event_refetches_whole_list_witness :
  let w := mkWorld (Samples.detail_with_draft "")
             (set_comments Samples.thread
                (Samples.service (Some Samples.alice) Samples.never))
             [] Samples.noon in
  let gone := mkPayload DELETE None
                (Some (mkCommentRow "c0" "r1" "bob" "deleted since" 5)) in
  let w' := exec (onPostgresChanges "r1" gone) w in
  map id (comments (screen w')) = ["c3"; "c1"]
  /\ StronglySorted (ascending created_at) (comments (screen w')).
Proof.
  assert (Hserved : forall e : Error, Samples.never 1 <> Crash e)
    by (intros e H; discriminate H).
  destruct (change_event_refetches_whole_list "r1"
              (mkPayload DELETE None
                 (Some (mkCommentRow "c0" "r1" "bob" "deleted since" 5)))
              (mkWorld (Samples.detail_with_draft "")
                 (set_comments Samples.thread
                    (Samples.service (Some Samples.alice) Samples.never))
                 [] Samples.noon)
              eq_refl Hserved) as [_ [_ [Hsorted _]]].
  split; [reflexivity | exact Hsorted].
Defined.

(** C5, as the spec states it, fails: a blank draft makes [handleAddComment]
    complete normally, with no error set and nothing shown; no failure of
    any kind is reported. *)
Lemma blank_comment_reports_no_failure :
  let w := mkWorld (Samples.detail_with_draft "   ")
             (Samples.service (Some Samples.alice) Samples.never)
             [] Samples.noon in
  completion (handleAddComment "r1") w = Normal tt
  /\ error (screen (exec (handleAddComment "r1") w)) = None
  /\ ui (exec (handleAddComment "r1") w) = [].
Proof. repeat split. Qed.

(** C5, amended: on an empty or blank draft [handleAddComment] returns at
    once and silently.  Nothing is sent to the data service (no user
    lookup, no insert), no comment row is created, and draft, error,
    loading flag and comment list stay as they are. *)
Theorem blank_comment_is_ignored (id : string) (w : World State) :
  whitespaceOnly (newComment (screen w)) = true ->
  handleAddComment id w = (Normal tt, w)
  /\ issued (backend w) (backend (exec (handleAddComment id) w)) = []
  /\ Supabase.comments (backend (exec (handleAddComment id) w))
     = Supabase.comments (backend w).
Proof.
  intros H. apply JsFacts.trim_falsy_iff in H.
  assert (E : handleAddComment id w = (Normal tt, w)).
  { unfold handleAddComment. unfold_task. simpl. now rewrite H. }
  unfold exec. rewrite E. simpl. repeat split.
  unfold issued. now rewrite Nat.sub_diag.
Qed.

Lemma blank_comment_is_ignored_witness :
  let w := mkWorld (Samples.detail_with_draft "   ")
             (Samples.service (Some Samples.alice) Samples.never)
             [] Samples.noon in
  whitespaceOnly (newComment (screen w)) = true
  /\ handleAddComment "r1" w = (Normal tt, w).
Proof.
  split; [reflexivity|].
  exact (proj1 (blank_comment_is_ignored "r1"
                  (mkWorld (Samples.detail_with_draft "   ")
                     (Samples.service (Some Samples.alice) Samples.never)
                     [] Samples.noon) eq_refl)).
Defined.

(** C10: a run of [handleAddComment] in which no insert was fulfilled (no
    signed-in user, an insert answered with an error, a rejected promise)
    leaves the draft and the [comments] table untouched; the draft is
    emptied only in runs whose insert was fulfilled, and then the new row
    carries the trimmed draft. *)
Theorem failed_comment_keeps_draft (id : string) (w : World State) :
  let w' := exec (handleAddComment id) w in
  let sent := issued (backend w) (backend w') in
  (existsb (fun e => isCommentsInsert e && fulfilled e) sent = false ->
     newComment (screen w') = newComment (screen w)
     /\ Supabase.comments (backend w') = Supabase.comments (backend w))
  /\ (existsb (fun e => isCommentsInsert e && fulfilled e) sent = true ->
     newComment (screen w') = ""
     /\ exists row,
          Supabase.comments (backend w')
            = (Supabase.comments (backend w) ++ [row])%list
          /\ com_report_id row = id
          /\ com_text row = Js.trim (newComment (screen w))).
Proof.
  destruct w as [st b u t]. unfold_detail. run_handler.
  all: issued_norm; simpl; split; intros H; try discriminate H.
  all: try (split; reflexivity).
  all: split; [reflexivity | eexists; repeat split; reflexivity].
Qed.

(** The three ways to fail, and the success, on one draft. *)
Lemma failed_comment_keeps_draft_witness :
  let draft := "  Seen it too " in
  let run f who :=
    exec (handleAddComment "r1")
      (mkWorld (Samples.detail_with_draft draft) (Samples.service who f)
         [] Samples.noon) in
  newComment (screen (run Samples.never None)) = draft
  /\ newComment (screen (run (Samples.refuse_at 1 "timeout") (Some Samples.alice)))
     = draft
  /\ newComment (screen (run (Samples.crash_at 1 "socket closed") (Some Samples.alice)))
     = draft
  /\ newComment (screen (run Samples.never (Some Samples.alice))) = ""
  /\ map com_text (Supabase.comments (backend (run Samples.never (Some Samples.alice))))
     = ["Seen it too"].
Proof.
  split.
  { exact (proj1 (proj1 (failed_comment_keeps_draft "r1"
             (mkWorld (Samples.detail_with_draft "  Seen it too ")
                (Samples.service None Samples.never) [] Samples.noon))
             eq_refl)). }
  repeat split.
Defined.

(** The handle of a new channel is above every handle in use. *)
Lemma fresh_handle_above (l : list Channel) :
  Forall (fun c => ch_handle c < fresh_handle l) l.
Proof.
  unfold fresh_handle. induction l as [|c l IH]; simpl; constructor.
  - lia.
  - eapply Forall_impl; [|exact IH]. simpl. intros; lia.
Qed.

Lemma filter_filter_nil {A} (f g : A -> bool) (l : list A) :
  filter f l = [] -> filter f (filter g l) = [].
Proof.
  induction l as [|x l IH]; simpl; [reflexivity|].
  destruct (f x) eqn:Ef; [discriminate|]. intros H.
  destruct (g x); simpl; [rewrite Ef|]; auto.
Qed.

(** Leaving the open channel of a topic takes channels away only. *)
Lemma leaveOpenTopic_incl (topic : string) (b : Backend) :
  incl (channels (leaveOpenTopic topic b)) (channels b).
Proof.
  unfold leaveOpenTopic.
  destruct (openTopic topic (channels b)) as [d|]; simpl.
  - intros c Hc. apply filter_In in Hc. tauto.
  - intros c Hc. exact Hc.
Qed.

(** With at most one channel open on a topic, none is after leaving. *)
Lemma leaveOpenTopic_closes (topic : string) (b : Backend) :
  length (onTopic topic b) <= 1 ->
  onTopic topic (leaveOpenTopic topic b) = [].
Proof.
  unfold onTopic, leaveOpenTopic, openTopic.
  assert (H : forall l,
             length (filter (fun c => ch_topic c =? topic) l) <= 1 ->
             match find (fun c => ch_topic c =? topic) l with
             | Some d =>
                 filter (fun c => ch_topic c =? topic)
                   (filter (fun c => negb (Nat.eqb (ch_handle c) (ch_handle d))) l)
                 = []
             | None => filter (fun c => ch_topic c =? topic) l = []
             end).
  { induction l as [|c l IH]; simpl; [reflexivity|].
    destruct (ch_topic c =? topic) eqn:Et; simpl; intros Hlen.
    - rewrite Nat.eqb_refl. simpl. apply filter_filter_nil.
      destruct (filter (fun c0 => ch_topic c0 =? topic) l);
        [reflexivity | simpl in Hlen; lia].
    - specialize (IH Hlen).
      destruct (find (fun c0 => ch_topic c0 =? topic) l) as [d|];
        [|exact IH].
      destruct (negb (Nat.eqb (ch_handle c) (ch_handle d))); simpl;
        [rewrite Et|]; exact IH. }
  intros Hlen. specialize (H (channels b) Hlen).
  destruct (find (fun c => ch_topic c =? topic) (channels b)); simpl; exact H.
Qed.

(** Run as the effect's cleanup, the function [subscribeToComments] hands
    back does release the subscription it was handed with. *)
Lemma subscribe_cleanup_releases (id : string) (w : World State) :
  channels (backend (exec (c <- subscribeToComments id ;; runCleanup c) w))
  = channels (leaveOpenTopic "comments" (backend w)).
Proof.
  destruct w as [st b u t]. unfold_detail.
  rewrite filter_app. simpl. rewrite Nat.eqb_refl. simpl.
  rewrite app_nil_r.
  apply ListFacts.filter_all_on.
  pose proof (fresh_handle_above (channels b)) as H.
  rewrite Forall_forall in H. intros c Hc.
  apply leaveOpenTopic_incl in Hc. specialize (H c Hc).
  apply negb_true_iff, Nat.eqb_neq. lia.
Qed.

(** Entering always ends normally and without a cleanup, with the new
    channel added to those the client kept. *)
Lemma enter_run (id : string) (w : World State) :
  exists w1,
    enter id w = (Normal None, w1)
    /\ channels (backend w1)
       = (channels (leaveOpenTopic "comments" (backend w))
          ++ [mkChannel (fresh_handle (channels (backend w))) "comments" "*"
                        "public" "comments" ("report_id=eq." ++ id)])%list.
Proof.
  destruct w as [st b u t]. unfold_detail.
  generalize (fresh_handle (channels b)) as h.
  generalize (leaveOpenTopic "comments" b) as b1.
  intros b1 h. run_handler.
  all: eexists; split; reflexivity.
Qed.

(** Leaving changes nothing at all: a visit ends where entering ends. *)
Lemma visit_run (id : string) (w : World State) :
  exists w1,
    enter id w = (Normal None, w1)
    /\ visit id w = (Normal tt, w1)
    /\ channels (backend w1)
       = (channels (leaveOpenTopic "comments" (backend w))
          ++ [mkChannel (fresh_handle (channels (backend w))) "comments" "*"
                        "public" "comments" ("report_id=eq." ++ id)])%list.
Proof.
  destruct (enter_run id w) as [w1 [Henter Hch]].
  exists w1. split; [exact Henter|]. split; [|exact Hch].
  unfold visit, bind. rewrite Henter. reflexivity.
Qed.

(** The last of several visits starts from a world in which the client
    still has at most one channel open on the topic. *)
Lemma visits_last (n : nat) (id : string) (w : World State) :
  exists w0,
    exec (visits (S n) id) w = exec (visit id) w0
    /\ (length (onTopic "comments" (backend w)) <= 1 ->
        length (onTopic "comments" (backend w0)) <= 1).
Proof.
  revert w. induction n as [|n IH]; intros w.
  - exists w. split; [|auto].
    destruct (visit_run id w) as [w1 [_ [Hrun _]]].
    simpl. unfold exec, bind, ret. rewrite Hrun. reflexivity.
  - destruct (visit_run id w) as [w1 [_ [Hrun Hch]]].
    destruct (IH w1) as [w0 [Hlast Hinv]].
    exists w0. split.
    + change (visits (S (S n)) id) with (visit id ;; visits (S n) id).
      unfold exec, bind in *. rewrite Hrun. exact Hlast.
    + intros Hone. apply Hinv. unfold onTopic. rewrite Hch, filter_app.
      pose proof (leaveOpenTopic_closes "comments" (backend w) Hone) as Hnil.
      unfold onTopic in Hnil. rewrite Hnil. simpl. lia.
Qed.

(** C6 fails on the code: the effect drops the cleanup it is handed, so
    leaving the view releases nothing.  A visit (enter, then leave) ends in
    the very world that entering ends in, and the subscription made on
    entering is still live on the report's comments; so it is after any
    number of enter/exit cycles, when no view is left.  The client itself
    keeps one channel per topic, and the topic is always ['comments']: the
    stale subscription goes only when a view is entered again, so that one
    subscription, not none, is live after the last exit. *)
Theorem leaving_releases_no_subscription
    (n : nat) (id : string) (w : World State) :
  let entered := exec (enter id) w in
  let left := exec (visit id) w in
  let after := exec (visits (S n) id) w in
  completion (visit id) w = Normal tt
  /\ left = entered
  /\ (exists c, In c (watching id (backend left))
                /\ ch_handle c = fresh_handle (channels (backend w)))
  /\ watching id (backend after) <> []
  /\ (length (onTopic "comments" (backend w)) <= 1 ->
      exists c, onTopic "comments" (backend after) = [c]
                /\ ch_filter c = "report_id=eq." ++ id).
Proof.
  intros entered left after.
  destruct (visit_run id w) as [w1 [Henter [Hvisit Hch]]].
  destruct (visits_last n id w) as [w0 [Hlast Hinv]].
  destruct (visit_run id w0) as [w2 [_ [Hvisit0 Hch0]]].
  subst entered left after. rewrite Hlast.
  unfold exec, completion. rewrite Henter, Hvisit, Hvisit0. simpl.
  split; [reflexivity|]. split; [reflexivity|]. split; [|split].
  - exists (mkChannel (fresh_handle (channels (backend w))) "comments" "*"
                      "public" "comments" ("report_id=eq." ++ id)).
    split; [|reflexivity].
    unfold watching. rewrite Hch, filter_app. apply in_or_app. right.
    simpl. rewrite String.eqb_refl. left. reflexivity.
  - unfold watching. rewrite Hch0, filter_app. simpl.
    rewrite String.eqb_refl. intros H. apply app_eq_nil in H.
    destruct H as [_ H]. discriminate H.
  - intros Hone.
    exists (mkChannel (fresh_handle (channels (backend w0))) "comments" "*"
                      "public" "comments" ("report_id=eq." ++ id)).
    split; [|reflexivity].
    unfold onTopic. rewrite Hch0, filter_app.
    pose proof (leaveOpenTopic_closes "comments" (backend w0) (Hinv Hone))
      as Hnil.
    unfold onTopic in Hnil. rewrite Hnil. reflexivity.
Qed.

(** Enter report r1 and leave: its subscription stays.  It goes when a
    view is entered again, be it the view of another report, and the
    subscription of that view stays in turn when the view is left. *)
Lemma stale_subscription_goes_on_next_enter :
  let w := mkWorld initialState
             (Samples.service (Some Samples.alice) Samples.never)
             [] Samples.noon in
  let left := exec (visit "r1") w in
  let back := exec (enter "r1") left in
  let other := exec (visit "r2") left in
  map ch_handle (watching "r1" (backend left)) = [1]
  /\ map ch_handle (watching "r1" (backend back)) = [2]
  /\ map ch_handle (watching "r1" (backend other)) = []
  /\ map ch_handle (watching "r2" (backend other)) = [2].
Proof. repeat split. Qed.

End ReportDetailScreenProofs.

(* ====================================================================== *)
(** * Running a handler on the handset *)
(* ====================================================================== *)

Ltac unfold_device :=
  unfold Device.onApp, Device.Platform_OS, Device.PermissionsAndroid_request,
    Device.launchCamera, Device.launchImageLibrary,
    Device.Geolocation_getCurrentPosition, Device.set_app, Device.set_phone,
    Device.record_use, Device.firstAsset.

Module DeviceFacts.
Import Device ObserveDevice.

Lemma asked_app {St} (before after : Handset St) (new : list Use) :
  used (phone after) = (new ++ used (phone before))%list -> asked before after = new.
Proof.
  unfold asked. intros ->. rewrite length_app.
  replace (length new + length (used (phone before))
           - length (used (phone before)))
    with (length new + 0) by lia.
  rewrite firstn_app_2. simpl. apply app_nil_r.
Qed.

End DeviceFacts.

(** Rewrites [asked h h'] to the uses the run has added. *)
Ltac asked_norm :=
  match goal with
  | |- context [ObserveDevice.asked ?b ?b'] =>
      first [ rewrite (@DeviceFacts.asked_app _ b b' []) by reflexivity
            | erewrite (@DeviceFacts.asked_app _ b b' [_]) by reflexivity
            | erewrite (@DeviceFacts.asked_app _ b b' [_; _]) by reflexivity
            | erewrite (@DeviceFacts.asked_app _ b b' [_; _; _]) by reflexivity ]
  end.

(* ====================================================================== *)
(** * ReportScreen: every run of handleSubmit *)
(* ====================================================================== *)

Module ReportScreenRuns.
Import Supabase Observe ObserveDevice SupabaseFacts ReportScreen.

Ltac run_submit :=
  unfold handleSubmit, setLoading;
  unfold_task; unfold_service; simpl; run_handler.

(** The world a served submission ends in: the photo is stored, the
    record is sent without an [image_url] and refused, and the alert names
    the save-report stage. *)
Lemma handleSubmit_served_run (w : World State) (u : User) (img : string)
    (loc : LatLng) :
  let n := length (calls (backend w)) in
  (forall k, k < 4 -> faults (backend w) (n + k) = Proceed) ->
  identity (backend w) = Some u ->
  image (screen w) = Some img -> Js.truthy img = true ->
  location (screen w) = Some loc ->
  Js.truthy (category (screen w)) = true ->
  existsb (same_object "reports" (imagePath (now w))) (objects (backend w))
    = false ->
  exists b' m,
    handleSubmit w
    = (Normal tt,
       mkWorld (mkState (image (screen w)) (location (screen w))
                  (category (screen w)) (description (screen w)) false
                  (error (screen w)))
               b'
               (Alert "Error" (submitErrorText
                  ("Failed to process image: Failed to save report: " ++ m))
                  :: ui w)
               (now w))
    /\ reports b' = reports (backend w)
    /\ objects b'
       = (objects (backend w)
          ++ [mkObject "reports" (imagePath (now w)) (ArrayBufferOfBase64 img)
                "image/jpeg" (user_id u)])%list
    /\ hd_error (calls b')
       = Some (mkEntry
                 (ReportsInsert
                    (mkReportInsert (Some (user_id u)) None (Some (JLatLng loc))
                       (category (screen w)) (description (screen w))))
                 (Failed (mkError m))).
Proof.
  destruct w as [st b ev t]. simpl.
  intros Hplan Hid Himg Htruthy Hloc Hcat Hfree.
  pose proof (Hplan 0 ltac:(lia)) as H0. pose proof (Hplan 1 ltac:(lia)) as H1.
  pose proof (Hplan 2 ltac:(lia)) as H2. pose proof (Hplan 3 ltac:(lia)) as H3.
  rewrite Nat.add_0_r in H0.
  replace (length (calls b) + 1) with (S (length (calls b))) in H1 by lia.
  replace (length (calls b) + 2) with (S (S (length (calls b)))) in H2 by lia.
  replace (length (calls b) + 3) with (S (S (S (length (calls b))))) in H3 by lia.
  unfold handleSubmit, setLoading. unfold_task. unfold_service. simpl.
  rewrite Himg, Hloc. simpl. rewrite Htruthy, Hcat. simpl.
  rewrite H0. simpl. rewrite Hid. simpl. rewrite H1. simpl.
  rewrite Hid, Hfree. simpl. rewrite H2. simpl.
  assert (Hnow : existsb (same_object "reports" (imagePath t))
                   (objects b ++ [mkObject "reports" (imagePath t)
                      (ArrayBufferOfBase64 img) "image/jpeg" (user_id u)]) = true).
  { rewrite existsb_app. simpl. unfold same_object at 2. simpl.
    rewrite String.eqb_refl. simpl. apply orb_true_r. }
  rewrite Hnow. simpl. rewrite H3. simpl.
  do 2 eexists. split; [rewrite ?Himg, ?Hloc; reflexivity|].
  split; [reflexivity|]. split; reflexivity.
Qed.

(** X1: [handleSubmit] never rejects and never edits the form: photo,
    position, category, description and error are as before, and
    [loading] is switched off exactly when the entry guard let the
    submission through. *)
Theorem handleSubmit_settles (w : World State) :
  let w' := exec handleSubmit w in
  completion handleSubmit w = Normal tt
  /\ image (screen w') = image (screen w)
  /\ location (screen w') = location (screen w)
  /\ category (screen w') = category (screen w)
  /\ description (screen w') = description (screen w)
  /\ error (screen w') = error (screen w)
  /\ loading (screen w')
     = (if passesGuard (screen w) then false else loading (screen w)).
Proof.
  destruct w as [[im lo ca de ld er] b u t]. unfold passesGuard. simpl.
  unfold handleSubmit, setLoading. unfold_task. unfold_service. simpl.
  destruct (Js.truthyOpt im) eqn:E1; destruct (isSome lo) eqn:E2;
    destruct (Js.truthy ca) eqn:E3; simpl;
    try (repeat split; reflexivity).
  run_handler. all: repeat split; reflexivity.
Qed.

(** X2: every run of [handleSubmit] tells the user exactly one of two
    things: the success alert followed by the navigation to Home, with one
    row added to [reports]; or a single error alert, with [reports] as it
    was. *)
Theorem handleSubmit_feedback (w : World State) :
  let w' := exec handleSubmit w in
  (ui w' = Navigate "Home" :: Alert "Success" "Report submitted successfully"
             :: ui w
   /\ exists row, reports (backend w') = (reports (backend w) ++ [row])%list)
  \/ (exists text, ui w' = Alert "Error" text :: ui w
      /\ reports (backend w') = reports (backend w)).
Proof.
  destruct w as [st b u t]. run_submit.
  all: first [ left; split; [reflexivity | eexists; reflexivity]
             | right; eexists; split; reflexivity ].
Qed.

(** X3: [handleSubmit] never writes a row.  The reply of
    [createSignedUrl] has no [publicUrl], so every record the screen sends
    to [reports] lacks the [image_url] the table requires, and [reports]
    is as it was after every run.  A run stores at most one object, at
    [reports/<Date.now()>.jpg] as image/jpeg. *)
Theorem handleSubmit_never_writes_a_row (w : World State) :
  let w' := exec handleSubmit w in
  reports (backend w') = reports (backend w)
  /\ (forall p o,
        In (mkEntry (ReportsInsert p) o) (issued (backend w) (backend w')) ->
        ins_image_url p = None)
  /\ (objects (backend w') = objects (backend w)
      \/ exists o, objects (backend w') = (objects (backend w) ++ [o])%list
                   /\ obj_path o = imagePath (now w)
                   /\ obj_contentType o = "image/jpeg").
Proof.
  destruct w as [st b u t]. run_submit.
  all: issued_norm; simpl.
  all: split; [reflexivity|].
  all: split;
    [ intros p o H;
      repeat match goal with
             | H : _ \/ _ |- _ => destruct H as [H | H]
             | H : False |- _ => destruct H
             | H : mkEntry _ _ = mkEntry _ _ |- _ => inversion H; clear H; subst
             end; reflexivity
    | first [ left; reflexivity
            | right; eexists; repeat split; reflexivity ] ].
Qed.

End ReportScreenRuns.

(* ====================================================================== *)
(** * ReportScreen: from the camera to the report *)
(* ====================================================================== *)

Module ReportScreenCaptureProofs.
Import Supabase Device Observe ObserveDevice ReportScreen ReportScreenCapture.

Ltac run_capture :=
  unfold takePhoto, pickImage, requestCameraPermission, getCurrentLocation,
    setImage, setLocation;
  unfold_device; unfold_task; simpl; run_handler.

(** The state a successful capture leaves on the screen. *)
Lemma capture_run
    (h : Handset State) (r : ImagePickerResponse) (a : Asset) (c : Coordinates) :
  os (phone h) = IOS \/ permission_answer (phone h) CAMERA = inl GRANTED ->
  camera_answer (phone h) = inl r ->
  didCancel r = false -> Js.truthyOpt (errorCode r) = false ->
  firstAsset r = Some a ->
  position_answer (phone h) = Fix c ->
  exists ph,
    takePhoto h
    = (Normal tt,
       mkHandset
         (mkWorld (mkState (asset_base64 a)
                     (Some (mkLatLng (latitude c) (longitude c)))
                     (category (screen (app h)))
                     (description (screen (app h))) (loading (screen (app h)))
                     (error (screen (app h))))
                  (backend (app h)) (ui (app h)) (now (app h)))
         ph).
Proof.
  destruct h as [[st b u t] [o pa ca la po us]]. simpl.
  intros Hperm -> Hcancel Hcode Hasset ->.
  unfold firstAsset in Hasset.
  unfold takePhoto, requestCameraPermission, getCurrentLocation, setImage,
    setLocation.
  unfold_device. unfold_task. simpl.
  destruct o; simpl.
  - destruct Hperm as [Hperm | Hperm]; [discriminate Hperm|].
    rewrite Hperm. simpl. rewrite Hcancel, Hcode. simpl.
    destruct (assets r) as [[|a' l]|]; try discriminate Hasset.
    inversion Hasset; subst a'. simpl. eexists. reflexivity.
  - rewrite Hcancel, Hcode. simpl.
    destruct (assets r) as [[|a' l]|]; try discriminate Hasset.
    inversion Hasset; subst a'. simpl. eexists. reflexivity.
Qed.

(** X4: [takePhoto] never rejects; the camera is launched only on iOS or
    after the CAMERA permission was granted; and a run that does not reach
    the camera leaves the form alone and asks for no position. *)
Theorem takePhoto_needs_permission (h : Handset State) :
  let h' := exec takePhoto h in
  completion takePhoto h = Normal tt
  /\ (existsb isCameraLaunch (asked h h') = true ->
      os (phone h) = IOS \/ permission_answer (phone h) CAMERA = inl GRANTED)
  /\ (existsb isCameraLaunch (asked h h') = false ->
      screen (app h') = screen (app h)
      /\ existsb isPositionRequest (asked h h') = false).
Proof.
  destruct h as [[st b u t] [o pa ca la po us]]. run_capture.
  all: asked_norm; simpl; split; [reflexivity|]; split; intros H;
    try discriminate H; auto.
  all: try (destruct st; split; reflexivity).
  all: right; match goal with p : PermissionStatus |- _ => destruct p end;
    simpl in *; congruence.
Qed.

(** X5: when the camera answers with a cancellation, an error code or no
    asset, [takePhoto] keeps the form and the data service as they were and
    asks for no position. *)
Theorem takePhoto_without_photo_keeps_form
    (h : Handset State) (r : ImagePickerResponse) :
  camera_answer (phone h) = inl r ->
  didCancel r = true \/ Js.truthyOpt (errorCode r) = true
    \/ firstAsset r = None ->
  let h' := exec takePhoto h in
  screen (app h') = screen (app h)
  /\ backend (app h') = backend (app h)
  /\ existsb isPositionRequest (asked h h') = false.
Proof.
  destruct h as [[st b u t] [o pa ca la po us]]. simpl. intros -> Hr.
  run_capture.
  all: asked_norm; simpl.
  all: try (destruct st; repeat split; reflexivity).
  all: exfalso; unfold firstAsset in *;
    repeat match goal with
           | H : _ \/ _ |- _ => destruct H as [H | H]
           end;
    try congruence;
    repeat match goal with
           | H : assets _ = _ |- _ => rewrite H in *
           end; congruence.
Qed.

Lemma takePhoto_without_photo_keeps_form_witness :
  let h := mkHandset
             (mkWorld Samples.filled
                (Samples.service (Some Samples.alice) Samples.never)
                [] Samples.noon)
             (SampleDevices.android SampleDevices.cancelled) in
  let h' := exec takePhoto h in
  screen (app h') = Samples.filled
  /\ backend (app h') = backend (app h)
  /\ existsb isPositionRequest (asked h h') = false.
Proof.
  apply (@takePhoto_without_photo_keeps_form
           (mkHandset
              (mkWorld Samples.filled
                 (Samples.service (Some Samples.alice) Samples.never)
                 [] Samples.noon)
              (SampleDevices.android SampleDevices.cancelled))
           SampleDevices.cancelled).
  - reflexivity.
  - left. reflexivity.
Defined.

(** X6: a capture that yields an asset stores the asset's base64 as the
    photo and asks for the position with high accuracy and no timeout; a
    fix becomes the location of the form, and a failure is shown as an
    alert carrying the handset's message, with the location kept. *)
Theorem takePhoto_stores_photo_and_position
    (h : Handset State) (r : ImagePickerResponse) (a : Asset) :
  os (phone h) = IOS \/ permission_answer (phone h) CAMERA = inl GRANTED ->
  camera_answer (phone h) = inl r ->
  didCancel r = false -> Js.truthyOpt (errorCode r) = false ->
  firstAsset r = Some a ->
  let h' := exec takePhoto h in
  image (screen (app h')) = asset_base64 a
  /\ hd_error (asked h h') = Some (AskedPosition (mkGeoOptions true None None))
  /\ match position_answer (phone h) with
     | Fix c =>
         location (screen (app h')) = Some (mkLatLng (latitude c) (longitude c))
         /\ ui (app h') = ui (app h)
     | NoFix e =>
         location (screen (app h')) = location (screen (app h))
         /\ ui (app h') = Alert "Error" (geo_message e) :: ui (app h)
     end.
Proof.
  destruct h as [[st b u t] [o pa ca la po us]]. simpl.
  intros Hperm -> Hcancel Hcode Hasset.
  unfold firstAsset in Hasset.
  run_capture.
  all: try (destruct Hperm as [Hperm | Hperm]; congruence).
  all: try congruence.
  all: asked_norm; simpl.
  all: try (repeat split; congruence).
  all: exfalso; destruct Hperm as [Hperm | Hperm];
    [discriminate Hperm | inversion Hperm; subst; simpl in *; discriminate].
Qed.

Lemma takePhoto_stores_photo_and_position_witness :
  let h := mkHandset
             (mkWorld SampleDevices.blank
                (Samples.service (Some Samples.alice) Samples.never)
                [] Samples.noon)
             (SampleDevices.android SampleDevices.picked) in
  let h' := exec takePhoto h in
  image (screen (app h')) = Some Samples.photo
  /\ hd_error (asked h h') = Some (AskedPosition (mkGeoOptions true None None))
  /\ location (screen (app h')) = Some (mkLatLng 48858370 2294481)
  /\ ui (app h') = [].
Proof.
  exact (@takePhoto_stores_photo_and_position
           (mkHandset
              (mkWorld SampleDevices.blank
                 (Samples.service (Some Samples.alice) Samples.never)
                 [] Samples.noon)
              (SampleDevices.android SampleDevices.picked))
           SampleDevices.picked SampleDevices.snapshot
           (or_intror eq_refl) eq_refl eq_refl eq_refl eq_refl).
Defined.

(** X7: [pickImage] has no handler of its own: when the library rejects,
    [pickImage] rejects with the same error and the screen is untouched;
    otherwise it returns, leaving the screen untouched without an asset
    and storing the asset's base64 and asking for the position with one. *)
Theorem pickImage_run (h : Handset State) :
  let h' := exec pickImage h in
  match library_answer (phone h) with
  | inr e => completion pickImage h = Abrupt e /\ app h' = app h
  | inl r =>
      completion pickImage h = Normal tt
      /\ match firstAsset r with
         | None => app h' = app h
         | Some a =>
             image (screen (app h')) = asset_base64 a
             /\ existsb isPositionRequest (asked h h') = true
         end
  end.
Proof.
  destruct h as [[st b u t] [o pa ca la po us]]. simpl.
  run_capture.
  all: unfold firstAsset in *; simpl in *.
  all: repeat match goal with
              | H : assets _ = _ |- _ => rewrite H in *
              end; simpl in *.
  all: try (split; reflexivity).
  all: try (asked_norm; simpl; repeat split; congruence).
Qed.

(** X8: photo, category, submit.  With the camera permitted and answering
    with an asset that carries base64 data, a fix, every request served, a
    signed-in user and a free path, running [takePhoto], choosing a
    category and running [handleSubmit] stores the asset's data at
    [reports/<Date.now()>.jpg] and sends a record with the user's id, the
    position of the fix and the chosen category, but without an
    [image_url]: the record is refused, no row is written, and the user is
    shown the error of the save-report stage, the form keeping photo and
    position. *)
Theorem photo_is_stored_but_report_is_refused
    (h : Handset State) (r : ImagePickerResponse)
    (a : Asset) (img : string) (c : Coordinates) (cat : string) (u : User) :
  os (phone h) = IOS \/ permission_answer (phone h) CAMERA = inl GRANTED ->
  camera_answer (phone h) = inl r ->
  didCancel r = false -> Js.truthyOpt (errorCode r) = false ->
  firstAsset r = Some a ->
  asset_base64 a = Some img -> Js.truthy img = true ->
  position_answer (phone h) = Fix c ->
  Js.truthy cat = true ->
  let n := length (calls (backend (app h))) in
  (forall k, k < 4 -> faults (backend (app h)) (n + k) = Proceed) ->
  identity (backend (app h)) = Some u ->
  existsb (same_object "reports" (imagePath (now (app h))))
          (objects (backend (app h))) = false ->
  let h' := exec (takePhoto ;; onApp (setCategory cat) ;; onApp handleSubmit) h in
  reports (backend (app h')) = reports (backend (app h))
  /\ objects (backend (app h'))
     = (objects (backend (app h))
        ++ [mkObject "reports" (imagePath (now (app h)))
              (ArrayBufferOfBase64 img) "image/jpeg" (user_id u)])%list
  /\ (exists o,
        hd_error (calls (backend (app h')))
        = Some (mkEntry
                  (ReportsInsert
                     (mkReportInsert (Some (user_id u)) None
                        (Some (JLatLng (mkLatLng (latitude c) (longitude c))))
                        cat (description (screen (app h)))))
                  o))
  /\ (exists m,
        ui (app h')
        = Alert "Error" (submitErrorText
            ("Failed to process image: Failed to save report: " ++ m))
          :: ui (app h))
  /\ image (screen (app h')) = Some img
  /\ location (screen (app h')) = Some (mkLatLng (latitude c) (longitude c)).
Proof.
  intros Hperm Hcam Hcancel Hcode Hasset Hb64 Himg Hpos Hcat n Hplan Hid Hfree h'.
  destruct (@capture_run h r a c Hperm Hcam Hcancel Hcode Hasset Hpos)
    as [ph Hrun].
  subst h'. unfold exec, bind. rewrite Hrun.
  unfold onApp at 1. unfold setCategory. unfold_task. simpl.
  unfold onApp. simpl.
  match goal with
  | |- context [handleSubmit ?w] =>
      destruct (@ReportScreenRuns.handleSubmit_served_run w u img
                  (mkLatLng (latitude c) (longitude c)))
        as [b' [m [Hs [Hrep [Hobj Hsent]]]]]; simpl; auto
  end.
  rewrite Hs. simpl. rewrite Hb64.
  split; [exact Hrep|]. split; [exact Hobj|].
  split; [eexists; exact Hsent|]. split; [exists m; reflexivity|].
  split; reflexivity.
Qed.

Lemma photo_is_stored_but_report_is_refused_witness :
  let h := mkHandset
             (mkWorld SampleDevices.blank
                (Samples.service (Some Samples.alice) Samples.never)
                [] Samples.noon)
             (SampleDevices.android SampleDevices.picked) in
  let h' := exec (takePhoto ;; onApp (setCategory "waste") ;; onApp handleSubmit)
                 h in
  reports (backend (app h')) = []
  /\ map obj_path (objects (backend (app h'))) = ["reports/1700000000000.jpg"]
  /\ image (screen (app h')) = Some Samples.photo.
Proof.
  destruct (@photo_is_stored_but_report_is_refused
              (mkHandset
                 (mkWorld SampleDevices.blank
                    (Samples.service (Some Samples.alice) Samples.never)
                    [] Samples.noon)
                 (SampleDevices.android SampleDevices.picked))
              SampleDevices.picked SampleDevices.snapshot Samples.photo
              SampleDevices.riverbank "waste" Samples.alice
              (or_intror eq_refl) eq_refl eq_refl eq_refl eq_refl eq_refl
              eq_refl eq_refl eq_refl (fun k _ => eq_refl) eq_refl eq_refl)
    as [Hrep [Hobj [_ [_ [Himg _]]]]].
  split; [exact Hrep|].
  split; [exact (f_equal (map obj_path) Hobj) | exact Himg].
Defined.

End ReportScreenCaptureProofs.

(* ====================================================================== *)
(** * CreateReportScreen: position, image picker and form reset *)
(* ====================================================================== *)

Module CreateReportScreenCaptureProofs.
Import Supabase Device Observe ObserveDevice.
Import CreateReportScreen CreateReportScreenCapture.

Ltac run_capture :=
  unfold handleImagePicker, requestLocationPermission, requestCameraPermission,
    getCurrentLocation, onFocus, setReport, setError, setShowSuccess, setLoading;
  unfold_device; unfold_task; simpl; run_handler.

(** X9: [handleImagePicker] never rejects and touches neither position,
    category, description nor the data service.  The photo changes only as
    a pair: either uri and base64 are both as before, or both are the
    non-empty uri and base64 of the first asset the launched picker
    returned, and then no error is set. *)
Theorem handleImagePicker_sets_photo_as_a_pair
    (type : PickerType) (h : Handset State) :
  let h' := exec (handleImagePicker type) h in
  let before := report (screen (app h)) in
  let after := report (screen (app h')) in
  completion (handleImagePicker type) h = Normal tt
  /\ location after = location before
  /\ category after = category before
  /\ description after = description before
  /\ backend (app h') = backend (app h)
  /\ ((image after = image before /\ imageBase64 after = imageBase64 before)
      \/ (Js.truthyOpt (image after) = true
          /\ Js.truthyOpt (imageBase64 after) = true
          /\ error (screen (app h')) = error (screen (app h))
          /\ exists r a, picker_answer type (phone h) = inl r
                         /\ firstAsset r = Some a
                         /\ image after = asset_uri a
                         /\ imageBase64 after = asset_base64 a)).
Proof.
  destruct h as [[[rp ld er ss] b u t] [o pa ca la po us]].
  destruct type; run_capture.
  all: repeat split; try reflexivity.
  all: try (left; split; reflexivity).
  all: right;
    match goal with
    | H : _ && _ = true |- _ => apply andb_true_iff in H; destruct H
    end;
    repeat split; try assumption;
    do 2 eexists; split; [reflexivity|]; unfold firstAsset;
    match goal with H : assets _ = _ |- _ => rewrite H end;
    repeat split; reflexivity.
Qed.

(** X10: a cancelled picker is silent: when the picker is reached (the
    gallery, or the camera on iOS or with the permission granted) and the
    user cancels, the screen is exactly as before: no photo, no error. *)
Theorem handleImagePicker_cancel_is_silent
    (type : PickerType) (h : Handset State) (r : ImagePickerResponse) :
  picker_answer type (phone h) = inl r ->
  didCancel r = true ->
  type = gallery \/ os (phone h) = IOS
    \/ permission_answer (phone h) CAMERA = inl GRANTED ->
  app (exec (handleImagePicker type) h) = app h.
Proof.
  destruct h as [[[rp ld er ss] b u t] [o pa ca la po us]]. simpl.
  intros Hans Hcancel Hperm.
  destruct type; simpl in Hans; subst; run_capture; try reflexivity.
  all: try congruence.
  all: exfalso; destruct Hperm as [Hp | [Hp | Hp]]; try discriminate Hp;
    try (inversion Hp; subst; simpl in *; discriminate); congruence.
Qed.

Lemma handleImagePicker_cancel_is_silent_witness :
  let h := mkHandset
             (mkWorld Samples.create_filled
                (Samples.service (Some Samples.alice) Samples.never)
                [] Samples.noon)
             (SampleDevices.android SampleDevices.cancelled) in
  app (exec (handleImagePicker camera) h) = app h.
Proof.
  apply (@handleImagePicker_cancel_is_silent camera
           (mkHandset
              (mkWorld Samples.create_filled
                 (Samples.service (Some Samples.alice) Samples.never)
                 [] Samples.noon)
              (SampleDevices.android SampleDevices.cancelled))
           SampleDevices.cancelled).
  - reflexivity.
  - reflexivity.
  - right. right. reflexivity.
Defined.

(** X11: failures of [handleImagePicker] end in the screen's error text and
    keep the photo.  On Android without the CAMERA permission the camera
    is not launched and the text says so; when the launched picker rejects,
    the text carries the rejection's message. *)
Theorem handleImagePicker_reports_failure
    (type : PickerType) (h : Handset State) :
  let h' := exec (handleImagePicker type) h in
  (type = camera -> os (phone h) = Android ->
   permission_answer (phone h) CAMERA <> inl GRANTED ->
   existsb isPickerLaunch (asked h h') = false
   /\ error (screen (app h'))
      = Some "Failed to capture/select image: Camera permission denied"
   /\ report (screen (app h')) = report (screen (app h)))
  /\ (forall e, picker_answer type (phone h) = inr e ->
      existsb isPickerLaunch (asked h h') = true ->
      error (screen (app h'))
        = Some ("Failed to capture/select image: " ++ message e)
      /\ report (screen (app h')) = report (screen (app h))).
Proof.
  destruct h as [[[rp ld er ss] b u t] [o pa ca la po us]]. simpl.
  destruct type; run_capture.
  all: asked_norm; simpl; split.
  all: try (intros _ Hos Hp; try discriminate Hos;
            try (exfalso; apply Hp; congruence);
            repeat split; try reflexivity;
            match goal with
            | p : PermissionStatus |- _ =>
                destruct p; simpl in *; try discriminate;
                exfalso; apply Hp; congruence
            end).
  all: try (intros Hty; discriminate Hty).
  all: try (intros e' He Hl; try discriminate Hl; try discriminate He;
            inversion He; subst; split; reflexivity).
Qed.

(** X12: [requestLocationPermission] never rejects and leaves photo,
    category and description alone.  The position is asked for only on
    iOS or with ACCESS_FINE_LOCATION granted; a fix becomes the location
    with the error untouched, a failure sets the text of its error code and
    keeps the location; and when the position is not asked for, the
    location is kept and an error text is set. *)
Theorem requestLocationPermission_run (h : Handset State) :
  let h' := exec requestLocationPermission h in
  let before := report (screen (app h)) in
  let after := report (screen (app h')) in
  completion requestLocationPermission h = Normal tt
  /\ image after = image before
  /\ imageBase64 after = imageBase64 before
  /\ category after = category before
  /\ description after = description before
  /\ (existsb isPositionRequest (asked h h') = true ->
      (os (phone h) = IOS
       \/ permission_answer (phone h) ACCESS_FINE_LOCATION = inl GRANTED)
      /\ match position_answer (phone h) with
         | Fix c => location after = Some c
                    /\ error (screen (app h')) = error (screen (app h))
         | NoFix e => location after = location before
                      /\ error (screen (app h'))
                         = Some (locationErrorText (geo_code e))
         end)
  /\ (existsb isPositionRequest (asked h h') = false ->
      location after = location before
      /\ exists m, error (screen (app h')) = Some m).
Proof.
  destruct h as [[[rp ld er ss] b u t] [o pa ca la po us]]. simpl.
  run_capture.
  all: asked_norm; simpl.
  all: do 5 (split; [reflexivity|]).
  all: split; intros H; try discriminate H.
  all: try (split; [reflexivity | eexists; reflexivity]).
  all: split; [ first [left; reflexivity | right; congruence] | ].
  all: try (split; reflexivity).
  all: destruct coords; split; reflexivity.
Qed.

(** X13: the focus listener wipes the draft, so nothing typed before can be
    submitted afterwards: whatever the screen held, [onFocus] followed by
    [handleSubmit] ends with the empty form, shows 'Please select an
    image', and sends nothing to the data service. *)
Theorem focus_then_submit_is_rejected (w : World State) :
  let w' := exec (onFocus ;; handleSubmit) w in
  completion (onFocus ;; handleSubmit) w = Normal tt
  /\ screen w' = mkState emptyReport false None false
  /\ ui w' = Alert "Error" "Please select an image" :: ui w
  /\ backend w' = backend w.
Proof.
  destruct w as [[rp ld er ss] b u t].
  unfold onFocus, handleSubmit, setReport, setError, setShowSuccess, setLoading.
  unfold_task. simpl. repeat split.
Qed.

End CreateReportScreenCaptureProofs.

(* ====================================================================== *)
(** * CreateReportScreen: every run of handleSubmit, and what it stores *)
(* ====================================================================== *)

Module CreateReportScreenRuns.
Import Supabase Observe ObserveDevice SupabaseFacts CreateReportScreen.

(** The world a served submission ends in. *)
Lemma create_submit_served_run (w : World State) (u : User) (uri img : string) :
  let n := length (calls (backend w)) in
  (forall k, k < 3 -> faults (backend w) (n + k) = Proceed) ->
  identity (backend w) = Some u ->
  image (report (screen w)) = Some uri -> Js.truthy uri = true ->
  imageBase64 (report (screen w)) = Some img -> Js.truthy img = true ->
  existsb (same_object "reports" (filePath u (now w))) (objects (backend w))
    = false ->
  exists b' row,
    handleSubmit w
    = (Normal tt,
       mkWorld (mkState (report (screen w)) false (error (screen w))
                        (showSuccess (screen w)))
               b'
               (GoBack :: Alert "Success" "Report submitted successfully" :: ui w)
               (now w))
    /\ reports b' = (reports (backend w) ++ [row])%list
    /\ row = mkReportRow (uuid (next_uuid (backend w))) (user_id u)
               (supabaseUrl ++ "/storage/v1/object/public/reports/"
                  ++ filePath u (now w))
               (JLatLng (zeroOr (location (report (screen w)))))
               (category (report (screen w)))
               (Some (description (report (screen w))))
               (server_now (backend w))
    /\ objects b'
       = (objects (backend w)
          ++ [mkObject "reports" (filePath u (now w)) (ArrayBufferOfBase64 img)
                "image/jpeg" (user_id u)])%list
    /\ faults b' = faults (backend w)
    /\ identity b' = identity (backend w)
    /\ length (calls b') = 3 + length (calls (backend w)).
Proof.
  destruct w as [[rp ld er ss] b ev t]. simpl.
  intros Hplan Hid Himg Huri Hb64 Htruthy Hfree.
  pose proof (Hplan 0 ltac:(lia)) as H0. pose proof (Hplan 1 ltac:(lia)) as H1.
  pose proof (Hplan 2 ltac:(lia)) as H2.
  rewrite Nat.add_0_r in H0.
  replace (length (calls b) + 1) with (S (length (calls b))) in H1 by lia.
  replace (length (calls b) + 2) with (S (S (length (calls b)))) in H2 by lia.
  unfold handleSubmit, setLoading. unfold_task. unfold_service. simpl.
  rewrite Himg, Hb64. simpl. rewrite Huri, Htruthy. simpl.
  rewrite H0. simpl. rewrite Hid. simpl. rewrite H1. simpl.
  rewrite Hid, Hfree. simpl. rewrite H2. simpl. rewrite Hid. simpl.
  rewrite String.eqb_refl. simpl.
  do 2 eexists. split; [reflexivity|]. split; [reflexivity|].
  split; [|repeat split; simpl; first [reflexivity | assumption]].
  unfold zeroOr, Js.orElse.
  destruct (location rp); destruct (Js.truthy (description rp)) eqn:E;
    try reflexivity;
    apply negb_false_iff, String.eqb_eq in E; rewrite E; reflexivity.
Qed.

Lemma filter_none {A} (f : A -> bool) (l : list A) :
  (forall x, In x l -> f x = false) -> filter f l = [].
Proof.
  induction l as [|x l IH]; simpl; intros H; [reflexivity|].
  rewrite (H x (or_introl eq_refl)). apply IH. intros y Hy. apply H. now right.
Qed.

(** Without a slash in the left parts, a string splits at its first slash
    in one way only. *)
Lemma split_at_first_slash (a b x y : string) :
  noSlash a = true -> noSlash b = true ->
  a ++ "/" ++ x = b ++ "/" ++ y -> a = b /\ x = y.
Proof.
  revert b. induction a as [|c a IH]; intros [|d b] Ha Hb H; simpl in *.
  - inversion H. auto.
  - inversion H; subst d. rewrite Ascii.eqb_refl in Hb. discriminate Hb.
  - inversion H; subst c. rewrite Ascii.eqb_refl in Ha. discriminate Ha.
  - inversion H; subst d.
    apply andb_true_iff in Ha, Hb. destruct Ha as [_ Ha]. destruct Hb as [_ Hb].
    destruct (IH b Ha Hb H2) as [-> ->]. auto.
Qed.

(** X14: every run of [handleSubmit] returns normally with the form,
    the error and the success flag as they were, and tells the user exactly
    one of two things: the success alert followed by going back, with one
    row added whose location is the position of the form or
    [{ lat: 0, lng: 0 }] without one; or a single error alert, with
    [reports] as it was. *)
Theorem create_handleSubmit_feedback (w : World State) :
  let w' := exec handleSubmit w in
  completion handleSubmit w = Normal tt
  /\ report (screen w') = report (screen w)
  /\ error (screen w') = error (screen w)
  /\ showSuccess (screen w') = showSuccess (screen w)
  /\ ((ui w' = GoBack :: Alert "Success" "Report submitted successfully" :: ui w
       /\ exists row,
            reports (backend w') = (reports (backend w) ++ [row])%list
            /\ rep_location row
               = JLatLng (zeroOr (location (report (screen w)))))
      \/ (exists text, ui w' = Alert "Error" text :: ui w
          /\ reports (backend w') = reports (backend w))).
Proof.
  destruct w as [[[im b64 lo ca de] ld er ss] b u t].
  unfold handleSubmit, setLoading; unfold_task; unfold_service; simpl;
    run_handler.
  all: do 4 (split; [reflexivity|]).
  all: first [ right; eexists; split; reflexivity
             | left; split; [reflexivity|]; eexists; split; reflexivity
             | left; split; [reflexivity|]; destruct lo; eexists; split;
               reflexivity ].
Qed.

(** X15: with every request served, a signed-in user, a picked photo and
    a free path, [handleSubmit] stores the decoded base64 at
    [<user id>/<Date.now()>.jpg] under the user's name and adds one row
    under the user's id whose [image_url] is the public URL of that object,
    then shows the success alert and goes back. *)
Theorem create_submission_stores_public_url
    (w : World State) (u : User) (uri img : string) :
  let n := length (calls (backend w)) in
  (forall k, k < 3 -> faults (backend w) (n + k) = Proceed) ->
  identity (backend w) = Some u ->
  image (report (screen w)) = Some uri -> Js.truthy uri = true ->
  imageBase64 (report (screen w)) = Some img -> Js.truthy img = true ->
  existsb (same_object "reports" (filePath u (now w))) (objects (backend w))
    = false ->
  let w' := exec handleSubmit w in
  reports (backend w')
  = (reports (backend w)
     ++ [mkReportRow (uuid (next_uuid (backend w))) (user_id u)
           (supabaseUrl ++ "/storage/v1/object/public/reports/"
              ++ filePath u (now w))
           (JLatLng (zeroOr (location (report (screen w)))))
           (category (report (screen w)))
           (Some (description (report (screen w))))
           (server_now (backend w))])%list
  /\ objects (backend w')
     = (objects (backend w)
        ++ [mkObject "reports" (filePath u (now w)) (ArrayBufferOfBase64 img)
              "image/jpeg" (user_id u)])%list
  /\ ui w' = GoBack :: Alert "Success" "Report submitted successfully" :: ui w
  /\ loading (screen w') = false.
Proof.
  intros n Hplan Hid Himg Huri Hb64 Htruthy Hfree w'.
  destruct (@create_submit_served_run w u uri img Hplan Hid Himg Huri Hb64
              Htruthy Hfree) as [b' [row [Hrun [Hrep [Hrow [Hobj _]]]]]].
  subst w' row. unfold exec. rewrite Hrun. simpl. auto.
Qed.

Lemma create_submission_stores_public_url_witness :
  let w := mkWorld Samples.create_filled
             (Samples.service (Some Samples.alice) Samples.never)
             [] Samples.noon in
  let w' := exec handleSubmit w in
  map rep_image_url (reports (backend w'))
  = [supabaseUrl ++ "/storage/v1/object/public/reports/alice/1700000000000.jpg"]
  /\ map obj_path (objects (backend w')) = ["alice/1700000000000.jpg"]
  /\ map obj_owner (objects (backend w')) = ["alice"].
Proof.
  destruct (@create_submission_stores_public_url
              (mkWorld Samples.create_filled
                 (Samples.service (Some Samples.alice) Samples.never)
                 [] Samples.noon)
              Samples.alice Samples.photo_uri Samples.photo
              (fun k _ => eq_refl) eq_refl eq_refl eq_refl eq_refl eq_refl
              eq_refl)
    as [Hrep [Hobj _]].
  split; [exact (f_equal (map rep_image_url) Hrep)|].
  split; [exact (f_equal (map obj_path) Hobj)
         | exact (f_equal (map obj_owner) Hobj)].
Defined.

(** X16: for user ids without a slash (the ids are UUIDs), the storage path
    [<user id>/<timestamp>.jpg] determines both the user and the
    millisecond: two submissions collide only when the same user submits
    twice in the same millisecond. *)
Theorem filePath_inj (u1 u2 : User) (t1 t2 : Z) :
  noSlash (user_id u1) = true -> noSlash (user_id u2) = true ->
  filePath u1 t1 = filePath u2 t2 ->
  user_id u1 = user_id u2 /\ t1 = t2.
Proof.
  unfold filePath. intros H1 H2 H.
  destruct (@split_at_first_slash _ _ _ _ H1 H2 H) as [Hu Ht].
  split; [exact Hu|].
  apply JsFacts.append_inv_tail in Ht.
  now apply JsFacts.numberToString_inj.
Qed.

Lemma filePath_inj_witness :
  user_id Samples.alice = user_id Samples.alice /\ Samples.noon = Samples.noon.
Proof.
  apply (@filePath_inj Samples.alice Samples.alice Samples.noon Samples.noon);
    reflexivity.
Defined.

(** X17: a report submitted without a position is stored with
    [{ lat: 0, lng: 0 }], and the detail screen that then loads it shows
    'Invalid location coordinates' for it: with the five requests served,
    a signed-in user, a picked photo, a free path and an unused id,
    [CreateReportScreen.handleSubmit] followed by
    [ReportDetailScreen.fetchReport] of the new row loads the report and
    [renderMap] yields the invalid-coordinates view. *)
Theorem report_without_position_shows_invalid_coordinates
    (w : World State) (u : User) (uri img : string) :
  let n := length (calls (backend w)) in
  (forall k, k < 5 -> faults (backend w) (n + k) = Proceed) ->
  identity (backend w) = Some u ->
  image (report (screen w)) = Some uri -> Js.truthy uri = true ->
  imageBase64 (report (screen w)) = Some img -> Js.truthy img = true ->
  location (report (screen w)) = None ->
  existsb (same_object "reports" (filePath u (now w))) (objects (backend w))
    = false ->
  (forall r, In r (reports (backend w)) ->
             rep_id r <> uuid (next_uuid (backend w))) ->
  let submitted := exec handleSubmit w in
  let opened :=
    exec (ReportDetailScreen.fetchReport (uuid (next_uuid (backend w))))
         (mkWorld ReportDetailScreen.initialState (backend submitted) []
                  (now w)) in
  (exists shown,
     ReportDetailScreen.report (screen opened) = Some shown
     /\ ReportDetailScreen.location shown = JLatLng (mkLatLng 0 0)
     /\ ReportDetailScreen.category shown = category (report (screen w)))
  /\ ReportDetailMap.renderMap (screen opened)
     = ReportDetailMap.InvalidCoordinates.
Proof.
  intros n Hplan Hid Himg Huri Hb64 Htruthy Hloc Hfree Hfresh submitted opened.
  assert (Hplan3 : forall k, k < 3 ->
            faults (backend w) (length (calls (backend w)) + k) = Proceed).
  { intros k Hk. apply Hplan. lia. }
  destruct (@create_submit_served_run w u uri img Hplan3 Hid Himg Huri Hb64
              Htruthy Hfree) as
    [b' [row [Hrun [Hrep [Hrow [_ [Hf [Hi Hlen]]]]]]]].
  subst submitted opened. unfold exec. rewrite Hrun. simpl.
  rewrite Hloc in Hrow. simpl in Hrow. subst row.
  pose proof (Hplan 3 ltac:(lia)) as H3. pose proof (Hplan 4 ltac:(lia)) as H4.
  unfold ReportDetailScreen.fetchReport, ReportDetailScreen.setReport,
    ReportDetailScreen.setError.
  unfold_task. unfold_service. simpl.
  rewrite Hf, Hlen. fold n.
  replace (3 + n) with (n + 3) by lia. rewrite H3. simpl.
  rewrite Hrep, filter_app.
  rewrite (@filter_none _ _ (reports (backend w))).
  2:{ intros r Hr. apply String.eqb_neq. now apply Hfresh. }
  simpl. rewrite String.eqb_refl. simpl.
  rewrite Hf, Hlen. fold n.
  replace (S (3 + n)) with (n + 4) by lia. rewrite H4. simpl.
  rewrite ?Hi, ?Hid. simpl.
  split; [eexists; repeat split|].
  unfold ReportDetailMap.renderMap. simpl. reflexivity.
Qed.

Lemma report_without_position_shows_invalid_coordinates_witness :
  let w := mkWorld Samples.create_without_location
             (Samples.service (Some Samples.alice) Samples.never)
             [] Samples.noon in
  let opened :=
    exec (ReportDetailScreen.fetchReport (uuid 0))
         (mkWorld ReportDetailScreen.initialState
                  (backend (exec handleSubmit w)) [] Samples.noon) in
  ReportDetailMap.renderMap (screen opened)
  = ReportDetailMap.InvalidCoordinates.
Proof.
  exact (proj2 (@report_without_position_shows_invalid_coordinates
                  (mkWorld Samples.create_without_location
                     (Samples.service (Some Samples.alice) Samples.never)
                     [] Samples.noon)
                  Samples.alice Samples.photo_uri Samples.photo
                  (fun k _ => eq_refl) eq_refl eq_refl eq_refl eq_refl eq_refl
                  eq_refl eq_refl (fun r H => match H with end))).
Defined.

End CreateReportScreenRuns.

(* ====================================================================== *)
(** * The tab variant: failures and the silent capture *)
(* ====================================================================== *)

Module TabsReportScreenRuns.
Import Supabase Device Observe ObserveDevice SupabaseFacts.
Import TabsReportScreen TabsReportScreenCapture.

Ltac run_submit :=
  unfold handleSubmit, setLoading, setError, setReport;
  unfold_task; unfold_service; simpl; run_handler.

(** X18: whenever the last request of a run of the tab variant's
    [handleSubmit] failed (answered with an error, or its promise
    rejected), the screen shows that error's message, or 'Failed to submit
    report' when the message is empty; the form is kept, [loading] is off
    and the handler returns normally. *)
Theorem tab_handleSubmit_shows_the_failure (w : World State) (e : Error) :
  let w' := exec handleSubmit w in
  lastFailure (issued (backend w) (backend w')) = Some e ->
  error (screen w')
    = Some (if Js.truthy (message e) then message e
            else "Failed to submit report")
  /\ report (screen w') = report (screen w)
  /\ loading (screen w') = false
  /\ completion handleSubmit w = Normal tt.
Proof.
  destruct w as [[rp ld er] b u t]. run_submit.
  all: issued_norm; simpl; intros H; try discriminate H.
  all: inversion H; subst; simpl in *; try discriminate; try congruence.
  all: repeat split; congruence.
Qed.

Lemma tab_handleSubmit_shows_the_failure_witness :
  let w := mkWorld Samples.tab_filled
             (Samples.service (Some Samples.alice)
                (Samples.refuse_at 1 "Payload too large"))
             [] Samples.noon in
  let w' := exec handleSubmit w in
  error (screen w') = Some "Payload too large"
  /\ report (screen w') = report (screen w)
  /\ loading (screen w') = false
  /\ completion handleSubmit w = Normal tt.
Proof.
  apply (@tab_handleSubmit_shows_the_failure
           (mkWorld Samples.tab_filled
              (Samples.service (Some Samples.alice)
                 (Samples.refuse_at 1 "Payload too large"))
              [] Samples.noon)
           (mkError "Payload too large")).
  reflexivity.
Defined.

(** X19: capturing on the tab variant is silent.
    [requestLocationPermission] never rejects, shows nothing, sets no
    error and keeps the photo: the location is either kept or becomes the
    fix of the handset, so a denied permission or a failed position leaves
    no trace on the screen.  [handleImagePicker] never rejects, keeps the
    location, and either keeps the photo or sets a non-empty uri. *)
Theorem tab_capture_is_silent (h : Handset State) (type : PickerType) :
  let h1 := exec requestLocationPermission h in
  let h2 := exec (handleImagePicker type) h in
  completion requestLocationPermission h = Normal tt
  /\ error (screen (app h1)) = error (screen (app h))
  /\ ui (app h1) = ui (app h)
  /\ image (report (screen (app h1))) = image (report (screen (app h)))
  /\ (location (report (screen (app h1))) = location (report (screen (app h)))
      \/ exists c, position_answer (phone h) = Fix c
                   /\ location (report (screen (app h1))) = Some c)
  /\ completion (handleImagePicker type) h = Normal tt
  /\ location (report (screen (app h2))) = location (report (screen (app h)))
  /\ (image (report (screen (app h2))) = image (report (screen (app h)))
      \/ Js.truthyOpt (image (report (screen (app h2)))) = true).
Proof.
  destruct h as [[[[im lo ca de] ld er] b u t] [o pa ca' la po us]].
  split; [|split; [|split; [|split; [|split]]]].
  1-5: unfold requestLocationPermission, getCurrentLocation, setReport;
    unfold_device; unfold_task; simpl; run_handler; try reflexivity.
  1-6: try (left; reflexivity).
  1-3: try (right; eexists; split; [reflexivity|]; destruct coords; reflexivity).
  destruct type;
    unfold handleImagePicker, setReport, setError;
    unfold_device; unfold_task; simpl; run_handler.
  all: repeat split; try reflexivity.
  all: first [left; reflexivity | right; simpl; assumption].
Qed.

End TabsReportScreenRuns.

(* ====================================================================== *)
(** * HomeScreen: both filters, and every run of the fetch *)
(* ====================================================================== *)

Module HomeScreenRuns.
Import Supabase Observe ObserveDevice SupabaseFacts HomeScreen.

Lemma filter_filter_and {A} (f g : A -> bool) (l : list A) :
  filter f (filter g l) = filter (fun x => g x && f x) l.
Proof.
  induction l as [|x l IH]; simpl; [reflexivity|].
  destruct (g x); simpl; [destruct (f x)|]; now rewrite IH.
Qed.

Lemma find_label (l : string) :
  forall c, find (fun cat => label cat =? l) CATEGORIES = Some c ->
            In c CATEGORIES /\ label c = l /\ Js.toLowerCase (id c) = id c.
Proof.
  intros c H. pose proof (find_some _ _ H) as [Hin Hl].
  apply String.eqb_eq in Hl. split; [exact Hin|]. split; [exact Hl|].
  simpl in Hin. destruct Hin as [<-|[<-|[<-|[<-|[]]]]]; reflexivity.
Qed.

Lemma labels_distinct (c1 c2 : Category) :
  In c1 CATEGORIES -> In c2 CATEGORIES -> label c1 = label c2 -> c1 = c2.
Proof.
  simpl. intros H1 H2.
  destruct H1 as [<-|[<-|[<-|[<-|[]]]]]; destruct H2 as [<-|[<-|[<-|[<-|[]]]]];
    simpl; intros H; try reflexivity; discriminate H.
Qed.

(** X20: [filterReports] changes the shown list only: it is a sublist, in
    fetch order, of the fetched reports, and a report is shown exactly
    when it passes both filters: the search text is empty or occurs,
    letter case aside, in its description or category; and no category is
    selected, or its category is, letter case aside, the id listed under
    the selected label.  A label that is not listed shows nothing. *)
Theorem filterReports_selects_text_and_category (w : World State) :
  let st := screen w in
  let w' := exec filterReports w in
  completion filterReports w = Normal tt
  /\ reports (screen w') = reports st
  /\ backend w' = backend w
  /\ (exists keep, filteredReports (screen w') = filter keep (reports st))
  /\ (forall r, In r (filteredReports (screen w')) <->
                In r (reports st)
                /\ (searchQuery st = "" \/ TextMatches (searchQuery st) r)
                /\ CategoryMatches (selectedCategory st) r).
Proof.
  destruct w as [[rs fs ld er rf q sel mv] b u t]. simpl.
  unfold filterReports, setFilteredReports. unfold_task. simpl.
  split; [reflexivity|]. split; [reflexivity|]. split; [reflexivity|].
  assert (Hq : forall r, (if Js.truthy q then matchesQuery q r else true) = true
                         <-> (q = "" \/ TextMatches q r)).
  { intros r. destruct (Js.truthy q) eqn:E.
    - rewrite HomeScreenProofs.matchesQuery_spec. split; [auto|].
      intros [-> | H]; [discriminate E | exact H].
    - apply negb_false_iff, String.eqb_eq in E. tauto. }
  assert (Hc : forall r,
             (match sel with
              | Some l =>
                  if Js.truthy l
                  then matchesCategory
                         (option_map id
                            (find (fun cat => label cat =? l) CATEGORIES)) r
                  else true
              | None => true
              end) = true <-> CategoryMatches sel r).
  { intros r. unfold CategoryMatches. destruct sel as [l|]; [|tauto].
    destruct (Js.truthy l) eqn:E.
    - destruct (find (fun cat => label cat =? l) CATEGORIES) as [c|] eqn:F;
        simpl.
      + destruct (@find_label l c F) as [Hin [Hl Hlow]].
        rewrite Hlow, String.eqb_eq. split.
        * intros H. right. exists c. auto.
        * intros [-> | [c' [Hin' [Hl' H]]]]; [discriminate E|].
          rewrite H. f_equal.
          apply labels_distinct; [assumption | assumption | congruence].
      + split; [discriminate|].
        intros [-> | [c' [Hin' [Hl' H]]]]; [discriminate E|].
        pose proof (find_none _ _ F c' Hin') as Hn. simpl in Hn.
        rewrite Hl', String.eqb_refl in Hn. discriminate Hn.
    - apply negb_false_iff, String.eqb_eq in E. tauto. }
  split.
  - exists (fun r => (if Js.truthy q then matchesQuery q r else true)
                     && match sel with
                        | Some l =>
                            if Js.truthy l
                            then matchesCategory
                                   (option_map id
                                      (find (fun cat => label cat =? l)
                                            CATEGORIES)) r
                            else true
                        | None => true
                        end).
    destruct (Js.truthy q); destruct sel as [l|]; try destruct (Js.truthy l);
      simpl; try reflexivity.
    all: first [ apply filter_filter_and
               | symmetry; apply ListFacts.filter_all; reflexivity
               | apply filter_ext; intros; rewrite ?andb_true_r; reflexivity ].
  - intros r. rewrite <- Hq, <- Hc.
    destruct (Js.truthy q); destruct sel as [l|]; try destruct (Js.truthy l);
      rewrite ?filter_In; intuition.
Qed.


(** X22: pulling to refresh ends exactly where a plain fetch ends, on the
    feed and on the list of own reports: [onRefresh] switches
    [refreshing] on and the fetch switches it off again on every path, so
    outcome, screen, data service and events are those of [fetchReports]. *)
Theorem onRefresh_ends_as_fetchReports
    (w : World State) (m : World MyReportsScreen.State) :
  HomeScreenRefresh.onRefresh w = fetchReports w
  /\ MyReportsScreen.onRefresh m = MyReportsScreen.fetchReports m.
Proof.
  split.
  - destruct w as [[rs fs ld er rf q sel mv] b u t].
    unfold HomeScreenRefresh.onRefresh, fetchReports, setLoading, setError,
      setReports, setFilteredReports, setRefreshing.
    unfold_task. unfold_service. simpl. run_handler. all: reflexivity.
  - destruct m as [[rs ld er rf] b u t].
    unfold MyReportsScreen.onRefresh, MyReportsScreen.fetchReports,
      MyReportsScreen.setLoading, MyReportsScreen.setError,
      MyReportsScreen.setReports, MyReportsScreen.setRefreshing,
      MyReportsScreen.reports_select_by_user.
    unfold_task. unfold_service. simpl. run_handler. all: reflexivity.
Qed.

End HomeScreenRuns.

(* ====================================================================== *)
(** * MyReportsScreen: the list of own reports *)
(* ====================================================================== *)

Module MyReportsScreenProofs.
Import Supabase Observe SupabaseFacts MyReportsScreen.

Lemma reports_of_user_In (uid : string) (l : list ReportRow) (r : ReportRow) :
  In r (reports_of_user uid l) <-> In r l /\ rep_user_id r = uid.
Proof.
  unfold reports_of_user. rewrite order_desc_In, filter_In, String.eqb_eq. tauto.
Qed.

(** X23: with both requests served and a user signed in, [fetchReports]
    lists exactly the stored reports of that user, newest first, each
    under the user's display name ('Anonymous' without one), with no error
    and [loading] and [refreshing] off. *)
Theorem fetchReports_lists_own_reports (w : World State) (u : User) :
  let n := length (calls (backend w)) in
  faults (backend w) n = Proceed -> faults (backend w) (S n) = Proceed ->
  identity (backend w) = Some u ->
  let w' := exec fetchReports w in
  reports (screen w')
    = map (fun r => mkReport r (Js.orElse (user_username u) "Anonymous"))
          (reports_of_user (user_id u) (Supabase.reports (backend w)))
  /\ (forall r, In r (map row (reports (screen w'))) <->
                In r (Supabase.reports (backend w)) /\ rep_user_id r = user_id u)
  /\ StronglySorted (descending rep_created_at) (map row (reports (screen w')))
  /\ error (screen w') = None
  /\ loading (screen w') = false /\ refreshing (screen w') = false.
Proof.
  destruct w as [[rs ld er rf] b ev t]. simpl. intros H0 H1 Hid.
  unfold fetchReports, setLoading, setError, setReports, setRefreshing,
    reports_select_by_user.
  unfold_task. unfold_service. simpl.
  rewrite H0. simpl. rewrite Hid. simpl. rewrite H1. simpl.
  split; [reflexivity|].
  rewrite map_map. simpl. rewrite map_id.
  split; [intros r; apply reports_of_user_In|].
  split; [apply order_desc_sorted|]. repeat split.
Qed.

Lemma fetchReports_lists_own_reports_witness :
  let w := mkWorld SampleDevices.my_reports_initial
             (set_reports Samples.feed
                (Samples.service (Some Samples.bob) Samples.never))
             [] Samples.noon in
  let w' := exec fetchReports w in
  map (fun r => rep_id (row r)) (reports (screen w')) = ["r2"; "r3"]
  /\ map username (reports (screen w')) = ["Anonymous"; "Anonymous"]
  /\ error (screen w') = None.
Proof.
  destruct (@fetchReports_lists_own_reports
              (mkWorld SampleDevices.my_reports_initial
                 (set_reports Samples.feed
                    (Samples.service (Some Samples.bob) Samples.never))
                 [] Samples.noon)
              Samples.bob eq_refl eq_refl eq_refl)
    as [Hlist [_ [_ [Herr _]]]].
  split; [exact (f_equal (map (fun r => rep_id (row r))) Hlist)|].
  split; [exact (f_equal (map username) Hlist) | exact Herr].
Defined.

(** X24: with nobody signed in (and the identity request not rejecting),
    [fetchReports] asks for the identity and nothing else, sets 'Please
    sign in to view your reports', keeps the list, and ends with [loading]
    and [refreshing] off. *)
Theorem fetchReports_signed_out (w : World State) :
  identity (backend w) = None ->
  (forall e, faults (backend w) (length (calls (backend w))) <> Crash e) ->
  let w' := exec fetchReports w in
  error (screen w') = Some "Please sign in to view your reports"
  /\ reports (screen w') = reports (screen w)
  /\ map entry_call (issued (backend w) (backend w')) = [AuthGetUser]
  /\ loading (screen w') = false /\ refreshing (screen w') = false.
Proof.
  destruct w as [[rs ld er rf] b ev t]. simpl. intros Hid Hcrash.
  unfold fetchReports, setLoading, setError, setReports, setRefreshing,
    reports_select_by_user.
  unfold_task. unfold_service. simpl.
  destruct (faults b (length (calls b))) as [|e|e] eqn:E; simpl;
    [rewrite Hid; simpl | | exfalso; exact (Hcrash e eq_refl)].
  all: issued_norm; repeat split.
Qed.

Lemma fetchReports_signed_out_witness :
  let w := mkWorld SampleDevices.my_reports_initial
             (set_reports Samples.feed (Samples.service None Samples.never))
             [] Samples.noon in
  let w' := exec fetchReports w in
  error (screen w') = Some "Please sign in to view your reports"
  /\ reports (screen w') = []
  /\ map entry_call (issued (backend w) (backend w')) = [AuthGetUser]
  /\ loading (screen w') = false /\ refreshing (screen w') = false.
Proof.
  apply (@fetchReports_signed_out
           (mkWorld SampleDevices.my_reports_initial
              (set_reports Samples.feed (Samples.service None Samples.never))
              [] Samples.noon)).
  - reflexivity.
  - intros e H. discriminate H.
Defined.

End MyReportsScreenProofs.

(* ====================================================================== *)
(** * ReportDetailScreen: loading the report, posting, the map area *)
(* ====================================================================== *)

Module ReportDetailScreenRuns.
Import Supabase Observe SupabaseFacts ReportDetailScreen ReportDetailMap.
Import ReportDetailScreenProofs.

(** X25: [fetchReport] with the select served (and the identity request
    not rejecting) keeps the comments and the draft.  When exactly one
    stored row has the id, the screen holds that row's fields with a
    display name that is the signed-in user's or 'Unknown User', and the
    error is untouched; with no such row, or several, it sets 'Failed to
    load report' and keeps the report it had. *)
Theorem fetchReport_run (id : string) (w : World State) :
  let n := length (calls (backend w)) in
  faults (backend w) n = Proceed ->
  (forall e, faults (backend w) (S n) <> Crash e) ->
  let w' := exec (fetchReport id) w in
  let found := filter (fun r => rep_id r =? id) (Supabase.reports (backend w)) in
  comments (screen w') = comments (screen w)
  /\ newComment (screen w') = newComment (screen w)
  /\ match found with
     | [r] =>
         error (screen w') = error (screen w)
         /\ exists viewer,
              report (screen w')
              = Some (mkReport (rep_id r) (rep_image_url r) (rep_category r)
                        (rep_description r) (rep_created_at r) (rep_location r)
                        (Js.orElse viewer "Unknown User"))
              /\ (viewer = None \/
                  exists u, identity (backend w) = Some u
                            /\ viewer = user_username u)
     | _ =>
         error (screen w') = Some "Failed to load report"
         /\ report (screen w') = report (screen w)
     end.
Proof.
  destruct w as [[rp cs nc ld er me] b u t]. simpl. intros H0 H1.
  unfold_detail. rewrite H0. simpl.
  destruct (filter (fun r => rep_id r =? id) (Supabase.reports b))
    as [|r [|r' l]];
    simpl; try (repeat split; reflexivity).
  destruct (faults b (S (length (calls b)))) as [|e|e] eqn:E; simpl.
  - destruct (identity b) as [v|]; simpl; repeat split.
    + exists (user_username v). split; [reflexivity|]. right. exists v. auto.
    + exists None. split; [reflexivity | left; reflexivity].
  - repeat split. exists None. split; [reflexivity | left; reflexivity].
  - exfalso. exact (H1 e eq_refl).
Qed.

Lemma fetchReport_run_witness :
  let w := mkWorld (Samples.detail_with_draft "Seen it")
             (set_reports Samples.feed
                (Samples.service (Some Samples.alice) Samples.never))
             [] Samples.noon in
  let w' := exec (fetchReport "r1") w in
  comments (screen w') = comments (screen w)
  /\ newComment (screen w') = "Seen it"
  /\ option_map category (report (screen w')) = Some "waste"
  /\ option_map report_username (report (screen w')) = Some "Alice".
Proof.
  destruct (@fetchReport_run "r1"
              (mkWorld (Samples.detail_with_draft "Seen it")
                 (set_reports Samples.feed
                    (Samples.service (Some Samples.alice) Samples.never))
                 [] Samples.noon)
              eq_refl (fun e H => ltac:(discriminate H)))
    as [Hc [Hn _]].
  split; [exact Hc|]. split; [exact Hn|]. split; reflexivity.
Defined.

(** X26: [fetchComments] never rejects and touches nothing but the list of
    comments: report, draft, [loading], [error] and the events are as
    before, so a failed fetch is not shown.  The list is either kept or
    replaced by the stored comments of the report, oldest first; and it is
    kept whenever the select failed or a request rejected. *)
Theorem fetchComments_settles (id : string) (w : World State) :
  let w' := exec (fetchComments id) w in
  completion (fetchComments id) w = Normal tt
  /\ report (screen w') = report (screen w)
  /\ newComment (screen w') = newComment (screen w)
  /\ loading (screen w') = loading (screen w)
  /\ error (screen w') = error (screen w)
  /\ ui w' = ui w
  /\ (comments (screen w') = comments (screen w)
      \/ exists user,
           comments (screen w')
           = map (withUser user) (comments_of id (Supabase.comments (backend w))))
  /\ (existsb (fun e => failed e && (negb (isAuth e) || threw e))
              (issued (backend w) (backend w')) = true ->
      comments (screen w') = comments (screen w)).
Proof.
  destruct w as [[rp cs nc ld er me] b u t]. unfold_detail. run_handler.
  all: do 6 (split; [reflexivity|]).
  all: issued_norm; simpl.
  all: split; [first [left; reflexivity | right; eexists; reflexivity]|].
  all: intros H; try discriminate H; reflexivity.
Qed.



(** X28: a run of [handleAddComment] on a draft that is not blank never
    rejects, shows no alert, ends with [loading] off, and ends in one of
    three ways: the insert was fulfilled; or nobody was signed in, no
    insert was sent and the error is 'Please sign in to comment'; or the
    error is 'Failed to add comment'. *)
Theorem handleAddComment_settles (id : string) (w : World State) :
  Js.truthy (Js.trim (newComment (screen w))) = true ->
  let w' := exec (handleAddComment id) w in
  completion (handleAddComment id) w = Normal tt
  /\ loading (screen w') = false
  /\ ui w' = ui w
  /\ (existsb (fun e => isCommentsInsert e && fulfilled e)
              (issued (backend w) (backend w')) = true
      \/ (error (screen w') = Some "Please sign in to comment"
          /\ existsb isCommentsInsert (issued (backend w) (backend w')) = false)
      \/ error (screen w') = Some "Failed to add comment").
Proof.
  destruct w as [[rp cs nc ld er me] b u t]. simpl. intros Hdraft.
  unfold_detail. rewrite Hdraft. simpl. run_handler.
  all: do 3 (split; [reflexivity|]).
  all: issued_norm; simpl.
  all: first [ left; reflexivity
             | right; left; split; reflexivity
             | right; right; reflexivity ].
Qed.

Lemma handleAddComment_settles_witness :
  let w := mkWorld (Samples.detail_with_draft "Seen it")
             (Samples.service None Samples.never) [] Samples.noon in
  let w' := exec (handleAddComment "r1") w in
  completion (handleAddComment "r1") w = Normal tt
  /\ loading (screen w') = false
  /\ error (screen w') = Some "Please sign in to comment".
Proof.
  destruct (@handleAddComment_settles "r1"
              (mkWorld (Samples.detail_with_draft "Seen it")
                 (Samples.service None Samples.never) [] Samples.noon)
              eq_refl)
    as [Hc [Hl _]].
  split; [exact Hc|]. split; [exact Hl | reflexivity].
Defined.

(** X29: what [renderMap] shows.  The coordinates are shown exactly when a
    report is loaded, no map error is flagged and the location is stored
    as [{ lat, lng }] with both numbers non-zero; 'Location data
    unavailable' exactly without a report or with the map error flagged;
    a location stored as [{ latitude, longitude }] is never shown; and the
    'Error loading map' view of the handler's catch block is never
    reached. *)
Theorem renderMap_cases (st : State) :
  renderMap st <> ErrorLoadingMap
  /\ (forall la lo,
        renderMap st = LocationText la lo <->
        mapError st = false /\ la <> 0%Z /\ lo <> 0%Z
        /\ exists r, report st = Some r
                     /\ location r = JLatLng (mkLatLng la lo))
  /\ (renderMap st = LocationUnavailable <->
      report st = None \/ mapError st = true)
  /\ (forall r c, report st = Some r -> location r = JCoordinates c ->
      renderMap st <> LocationText (latitude c) (longitude c)
      /\ (mapError st = false -> renderMap st = InvalidCoordinates)).
Proof.
  destruct st as [[[rid url cat de ca loc un]|] cs nc ld [e|] me];
    unfold renderMap; simpl;
    try destruct me; simpl;
    try (destruct loc as [[la' lo']|c']; simpl;
         [destruct (Z.eqb_spec la' 0); simpl;
          [|destruct (Z.eqb_spec lo' 0); simpl]|]).
  all: repeat split; try discriminate; intros;
    repeat match goal with
           | H : _ /\ _ |- _ => destruct H
           | H : exists _, _ |- _ => destruct H
           | H : _ \/ _ |- _ => destruct H
           | H : Some _ = Some _ |- _ => inversion H; subst; clear H
           | H : JLatLng _ = JLatLng _ |- _ => inversion H; subst; clear H
           | H : LocationText _ _ = LocationText _ _ |- _ =>
               inversion H; subst; clear H
           end;
    simpl in *; try discriminate; try congruence; auto.
  all: eexists; split; reflexivity.
Qed.

End ReportDetailScreenRuns.

(* ====================================================================== *)
(** * ProfileScreen: counts and points *)
(* ====================================================================== *)

Module ProfileScreenProofs.
Import Supabase Observe ObserveDevice SupabaseFacts ProfileScreen.

(** X30: [fetchUserStats] never rejects and does nothing without a user.
    Whenever it sets the statistics, the points are ten per report plus two
    per comment of the numbers it shows, and each number is the count of
    the user's own rows or zero; with both counts served the numbers are
    the counts of the user's own reports and comments. *)
Theorem fetchUserStats_counts_and_points (user : option User) (w : World State) :
  let w' := exec (fetchUserStats user) w in
  completion (fetchUserStats user) w = Normal tt
  /\ (stats (screen w') = stats (screen w)
      \/ exists u,
           user = Some u
           /\ points (stats (screen w'))
              = (reports (stats (screen w')) * 10
                 + comments (stats (screen w')) * 2)%Z
           /\ (reports (stats (screen w')) = ownReports u (backend w)
               \/ reports (stats (screen w')) = 0%Z)
           /\ (comments (stats (screen w')) = ownComments u (backend w)
               \/ comments (stats (screen w')) = 0%Z))
  /\ (forall u, user = Some u ->
      let n := length (calls (backend w)) in
      faults (backend w) n = Proceed -> faults (backend w) (S n) = Proceed ->
      stats (screen w')
      = mkStats (ownReports u (backend w)) (ownComments u (backend w))
                (ownReports u (backend w) * 10 + ownComments u (backend w) * 2)).
Proof.
  destruct w as [[st] b ev t]. destruct user as [u|]; simpl;
    [|split; [reflexivity|]; split;
      [left; reflexivity | intros u' H; discriminate H]].
  unfold fetchUserStats, setStats, reports_count, comments_count.
  unfold_task. unfold_service. simpl. run_handler.
  all: split; [reflexivity|]; split.
  all: try (intros u' Hu H0 H1; inversion Hu; subst u';
            try discriminate H0; try discriminate H1; reflexivity).
  all: first [ left; reflexivity
             | right; exists u; split; [reflexivity|]; split;
               [ reflexivity
               | split; first [left; reflexivity | right; reflexivity] ] ].
Qed.

End ProfileScreenProofs.
